(** * A shallow embedding of pyfactx: profile-gated Factur-X XML rendering
    and the header monetary summation checks.

    Each definition below follows one Python function or class of
    [src/pyfactx]; the names are kept where Rocq allows it. *)

From Stdlib Require Import String Ascii ZArith List Bool Floats QArith Qabs Lia.
Import ListNotations.
Open Scope string_scope.
Open Scope Z_scope.
Set Warnings "-inexact-float,-register-all,-abstract-large-number".

(** ** InvoiceProfile.py *)

(** [class InvoiceProfile(StrEnum)]: five members, each a [str] whose value
    is a URN. *)
Inductive InvoiceProfile := MINIMUM | BASICWL | BASIC | EN16931 | EXTENDED.

Definition value (p : InvoiceProfile) : string :=
  match p with
  | MINIMUM => "urn:factur-x.eu:1p0:minimum"
  | BASICWL => "urn:factur-x.eu:1p0:basicwl"
  | BASIC => "urn:cen.eu:en16931:2017#compliant#urn:factur-x.eu:1p0:basic"
  | EN16931 => "urn:cen.eu:en16931:2017"
  | EXTENDED => "urn:cen.eu:en16931:2017#conformant#urn:factur-x.eu:1p0:extended"
  end.

(** The module-level dict [_invoice_profile_order], keyed by [str(p.value)]. *)
Definition _invoice_profile_order : list (string * Z) :=
  [(value MINIMUM, 0); (value BASICWL, 1); (value BASIC, 2);
   (value EN16931, 3); (value EXTENDED, 4)].

(** [d[k]]: [None] stands for the [KeyError] a missing key raises. *)
Fixpoint dict_get (d : list (string * Z)) (k : string) : option Z :=
  match d with
  | [] => None
  | (k', v) :: d' => if String.eqb k k' then Some v else dict_get d' k
  end.

(** The Python values a comparison operand can be: an [InvoiceProfile]
    member (a subclass of [str]), a plain [str], or an [int]. *)
Inductive pyval :=
| PProfile (p : InvoiceProfile)
| PStr (s : string)
| PInt (z : Z).

Inductive pytype := TInvoiceProfile | TStr | TInt.

Definition type_of (v : pyval) : pytype :=
  match v with PProfile _ => TInvoiceProfile | PStr _ => TStr | PInt _ => TInt end.

(** [issubclass(t1, t2)] for two distinct types: only [InvoiceProfile <: str]. *)
Definition proper_subclass (t1 t2 : pytype) : bool :=
  match t1, t2 with TInvoiceProfile, TStr => true | _, _ => false end.

Definition same_type (t1 t2 : pytype) : bool :=
  match t1, t2 with
  | TInvoiceProfile, TInvoiceProfile | TStr, TStr | TInt, TInt => true
  | _, _ => false
  end.

(** The four rich comparisons and their reflections. *)
Inductive cmpop := OpLt | OpLe | OpGt | OpGe.

Definition swapped (o : cmpop) : cmpop :=
  match o with OpLt => OpGt | OpLe => OpGe | OpGt => OpLt | OpGe => OpLe end.

(** What a comparison method returns: a bool, [NotImplemented], or an
    exception. *)
Inductive cmp_result := Ret (b : bool) | NotImpl | Raise (exn : string).

Definition z_cmp (o : cmpop) (a b : Z) : bool :=
  match o with
  | OpLt => a <? b | OpLe => a <=? b | OpGt => a >? b | OpGe => a >=? b
  end.

(** [InvoiceProfile.__lt__/__le__/__gt__/__ge__]: [NotImplemented] unless
    [other] is an [InvoiceProfile]; otherwise compare the two indices
    looked up in [_invoice_profile_order]. *)
Definition InvoiceProfile_cmp (o : cmpop) (self : InvoiceProfile) (other : pyval)
  : cmp_result :=
  match other with
  | PProfile q =>
      match dict_get _invoice_profile_order (value self),
            dict_get _invoice_profile_order (value q) with
      | Some a, Some b => Ret (z_cmp o a b)
      | _, _ => Raise "KeyError"
      end
  | _ => NotImpl
  end.

(** [str]'s comparisons: lexicographic on the characters, defined when both
    operands are [str] instances (an [InvoiceProfile] member is one, with
    its URN as characters). *)
Definition str_of (v : pyval) : option string :=
  match v with PProfile p => Some (value p) | PStr s => Some s | PInt _ => None end.

Definition str_cmp (o : cmpop) (a b : string) : bool :=
  match o, String.compare a b with
  | OpLt, Lt => true
  | OpLe, (Lt | Eq) => true
  | OpGt, Gt => true
  | OpGe, (Gt | Eq) => true
  | _, _ => false
  end.

Definition str_method (o : cmpop) (self : string) (other : pyval) : cmp_result :=
  match str_of other with Some s => Ret (str_cmp o self s) | None => NotImpl end.

Definition int_method (o : cmpop) (self : Z) (other : pyval) : cmp_result :=
  match other with PInt z => Ret (z_cmp o self z) | _ => NotImpl end.

(** The method [type(v).__op__] found on the operand's class. *)
Definition method (o : cmpop) (v : pyval) (other : pyval) : cmp_result :=
  match v with
  | PProfile p => InvoiceProfile_cmp o p other
  | PStr s => str_method o s other
  | PInt z => int_method o z other
  end.

(** The outcome of a Python expression: a value or a raised exception. *)
Inductive py_result (A : Type) := Ok (a : A) | Error (exn : string).
Arguments Ok {A} a.
Arguments Error {A} exn.

(** Python's binary comparison [v op w] (CPython [do_richcompare]): the
    reflected method of [w] first when [type(w)] is a proper subclass of
    [type(v)], then [v]'s method, then [w]'s reflected method if not yet
    tried; [TypeError] if every attempt returns [NotImplemented]. *)

Definition py_compare (o : cmpop) (v w : pyval) : py_result bool :=
  let reverse_first :=
    negb (same_type (type_of v) (type_of w)) && proper_subclass (type_of w) (type_of v) in
  let try_reverse (k : unit -> py_result bool) :=
    match method (swapped o) w v with
    | Ret b => Ok b | Raise e => Error e | NotImpl => k tt
    end in
  let try_forward (k : unit -> py_result bool) :=
    match method o v w with
    | Ret b => Ok b | Raise e => Error e | NotImpl => k tt
    end in
  if reverse_first
  then try_reverse (fun _ => try_forward (fun _ => Error "TypeError"))
  else try_forward (fun _ => try_reverse (fun _ => Error "TypeError")).

(** [profile >= other] as evaluated inside every [to_xml]; both operands
    are members, so the comparison never falls through. *)
Definition prof_ge (p q : InvoiceProfile) : bool :=
  match py_compare OpGe (PProfile p) (PProfile q) with
  | Ok b => b
  | Error _ => false
  end.

(** [profile < other] between two members, as in the model validators. *)
Definition prof_lt (p q : InvoiceProfile) : bool :=
  match py_compare OpLt (PProfile p) (PProfile q) with
  | Ok b => b
  | Error _ => false
  end.

(** The index each member gets in [_invoice_profile_order]. *)
Definition index (p : InvoiceProfile) : Z :=
  match p with MINIMUM => 0 | BASICWL => 1 | BASIC => 2 | EN16931 => 3 | EXTENDED => 4 end.

(** ** A model of the lxml element tree *)

(** An [lxml.etree._Element]: a Clark-notation tag [{uri}local], its
    attributes, its namespace map, its text and its children in order.
    lxml refuses text holding a control character; [text_leaf] below
    models that check where the code sets a [str] field as text. *)
Inductive Element := Elem
  { tag : string
  ; attrib : list (string * string)
  ; nsmap : list (string * string)
  ; text : option string
  ; children : list Element }.

(** ** namespaces.py *)
Definition RAM := "ram".
Definition RSM := "rsm".
Definition UDT := "udt".
Definition QDT := "qdt".
Definition XSI := "xsi".

Definition NAMESPACES : list (string * string) :=
  [(RSM, "urn:un:unece:uncefact:data:standard:CrossIndustryInvoice:100");
   (RAM, "urn:un:unece:uncefact:data:standard:ReusableAggregateBusinessInformationEntity:100");
   (QDT, "urn:un:unece:uncefact:data:standard:QualifiedDataType:100");
   (UDT, "urn:un:unece:uncefact:data:standard:UnqualifiedDataType:100");
   (XSI, "http://www.w3.org/2001/XMLSchema-instance")].

Fixpoint ns_lookup (d : list (string * string)) (k : string) : string :=
  match d with
  | [] => ""
  | (k', v) :: d' => if String.eqb k k' then v else ns_lookup d' k
  end.

(** [f"{{{NAMESPACES[prefix]}}}{name}"] *)
Definition qname (prefix name : string) : string :=
  "{" ++ ns_lookup NAMESPACES prefix ++ "}" ++ name.

(** [QUALIFIED = {prefix: f"{{{uri}}}" for prefix, uri in NAMESPACES.items()}] *)
Definition QUALIFIED : list (string * string) :=
  map (fun pu => (fst pu, "{" ++ snd pu ++ "}")) NAMESPACES.

(** [prefix in NAMESPACES] *)
Definition ns_has_key (d : list (string * string)) (k : string) : bool :=
  existsb (fun kv => String.eqb k (fst kv)) d.

(** [get_qualified_name] *)
Definition get_qualified_name (prefix local_name : string) : py_result string :=
  if negb (ns_has_key NAMESPACES prefix)
  then Error ("KeyError: Unknown namespace prefix: " ++ prefix)
  else Ok (ns_lookup QUALIFIED prefix ++ local_name).

(** [is_valid_namespace]: [uri in NAMESPACES.values()] *)
Definition is_valid_namespace (uri : string) : bool :=
  existsb (String.eqb uri) (map snd NAMESPACES).

(** The loop of [get_prefix_for_uri] over [NAMESPACES.items()], in
    insertion order. *)
Fixpoint first_prefix (items : list (string * string)) (uri : string) : option string :=
  match items with
  | [] => None
  | (prefix, namespace_uri) :: rest =>
      if String.eqb namespace_uri uri then Some prefix else first_prefix rest uri
  end.

(** [get_prefix_for_uri] *)
Definition get_prefix_for_uri (uri : string) : py_result string :=
  match first_prefix NAMESPACES uri with
  | Some prefix => Ok prefix
  | None => Error ("ValueError: Unknown namespace URI: " ++ uri)
  end.

(** [ET.Element(tag)] and [ET.Element(tag, nsmap=...)]. *)
Definition new_element (t : string) : Element := Elem t [] [] None [].

(** [root.append(child)] / [ET.SubElement(root, ...)]: children are kept in
    the order they are added. *)
Definition append (root child : Element) : Element :=
  Elem (tag root) (attrib root) (nsmap root) (text root) (children root ++ [child]).

(** A leaf element with text: [ET.SubElement(root, t, attrib=a).text = s],
    where [s] is a number, a date or a constant, which lxml accepts. *)
Definition leaf (t : string) (a : list (string * string)) (s : string) : Element :=
  Elem t a [] (Some s) [].

(** ** Text helpers *)

Definition digit (d : Z) : ascii := ascii_of_nat (48 + Z.to_nat d).

Fixpoint dec_aux (fuel : nat) (n : Z) (acc : string) : string :=
  match fuel with
  | O => acc
  | S f =>
      let acc' := String (digit (n mod 10)) acc in
      if n / 10 =? 0 then acc' else dec_aux f (n / 10) acc'
  end.

(** [str(n)] for a Python [int]. *)
Definition str_int (n : Z) : string :=
  let fuel := S (Z.to_nat (Z.log2 (Z.abs n))) in
  if n <? 0 then "-" ++ dec_aux fuel (- n) "" else dec_aux fuel n "".

Fixpoint zeros (k : nat) : string :=
  match k with O => "" | S k' => String "0" (zeros k') end.

(** The zero-padded decimal field of [strftime]: at least [w] digits. *)
Definition zpad (w : nat) (n : Z) : string :=
  let s := str_int n in zeros (w - String.length s) ++ s.

(** A Python [datetime]. *)
Record datetime := mk_datetime
  { year : Z; month : Z; day : Z; hour : Z; minute : Z; second : Z }.

(** [d.strftime("%Y%m%d")]: [%Y] is the year as four digits, [%m] and [%d]
    two digits each, zero padded. *)
Definition strftime_Ymd (d : datetime) : string :=
  zpad 4 (year d) ++ zpad 2 (month d) ++ zpad 2 (day d).

(** The [datetime] a validator receives: the fields above, its
    microseconds, and its [tzinfo] (an offset) when it is aware. *)
Record pydatetime := mk_pydatetime
  { naive : datetime; microsecond : Z; tzinfo : option Z }.

(** The fields Python compares, in order. *)
Definition dt_fields (d : datetime) (us : Z) : list Z :=
  [year d; month d; day d; hour d; minute d; second d; us].

(** Lexicographic [<] on lists of the same length. *)
Fixpoint lex_lt (a b : list Z) : bool :=
  match a, b with
  | x :: a', y :: b' => (x <? y) || ((x =? y) && lex_lt a' b')
  | _, _ => false
  end.

Definition msg_naive_aware := "TypeError: can't compare offset-naive and offset-aware datetimes".

(** [v < c] for a naive constant [c]. *)
Definition dt_lt (v : pydatetime) (c : datetime) : py_result bool :=
  match tzinfo v with
  | Some _ => Error msg_naive_aware
  | None => Ok (lex_lt (dt_fields (naive v) (microsecond v)) (dt_fields c 0))
  end.

(** [v > c] for a naive constant [c]. *)
Definition dt_gt (v : pydatetime) (c : datetime) : py_result bool :=
  match tzinfo v with
  | Some _ => Error msg_naive_aware
  | None => Ok (lex_lt (dt_fields c 0) (dt_fields (naive v) (microsecond v)))
  end.

(** Python truthiness of the optional fields tested with [if self.x:]. *)
Definition str_truthy (o : option string) : bool :=
  match o with Some s => negb (String.eqb s "") | None => false end.

Definition float_truthy (o : option float) : bool :=
  match o with Some x => negb (PrimFloat.eqb x 0%float) | None => false end.

Definition list_truthy {A} (o : option (list A)) : bool :=
  match o with Some (_ :: _) => true | _ => false end.

Definition is_some {A} (o : option A) : bool :=
  match o with Some _ => true | None => false end.

Definition nonempty {A} (l : list A) : bool :=
  match l with [] => false | _ => true end.

(** ** Python string methods used by the validators

    A [string] stands for a sequence of code points below U+0100, one
    [ascii] each. *)

Definition code (c : ascii) : Z := Z.of_nat (nat_of_ascii c).

(** [int(s)] on a string of decimal digits. *)
Fixpoint digits_value (s : string) (acc : Z) : Z :=
  match s with
  | EmptyString => acc
  | String c s' => digits_value s' (acc * 10 + (code c - 48))
  end.

(** [c.isspace()] below U+0100. *)
Definition py_isspace (c : ascii) : bool :=
  let n := code c in
  ((9 <=? n) && (n <=? 13)) || ((28 <=? n) && (n <=? 32)) || (n =? 133) || (n =? 160).

(** Rust's [char::is_whitespace] below U+0100, which pydantic-core's
    [str_strip_whitespace] trims: U+001C..U+001F are not whitespace. *)
Definition rust_is_whitespace (c : ascii) : bool :=
  let n := code c in
  ((9 <=? n) && (n <=? 13)) || (n =? 32) || (n =? 133) || (n =? 160).

Fixpoint drop_while (f : ascii -> bool) (l : list ascii) : list ascii :=
  match l with [] => [] | c :: l' => if f c then drop_while f l' else l end.

(** Removing the leading and trailing characters satisfying [f]. *)
Definition strip_with (f : ascii -> bool) (s : string) : string :=
  string_of_list_ascii
    (rev (drop_while f (rev (drop_while f (list_ascii_of_string s))))).

(** [s.strip()] *)
Definition py_strip (s : string) : string := strip_with py_isspace s.

(** pydantic's [str_strip_whitespace] (Rust's [str::trim]). *)
Definition rust_trim (s : string) : string := strip_with rust_is_whitespace s.

(** [s.split()]: the maximal runs of non-whitespace characters; [cur]
    holds the current run, reversed. *)
Fixpoint split_aux (l : list ascii) (cur : list ascii) : list string :=
  match l with
  | [] => match cur with [] => [] | _ => [string_of_list_ascii (rev cur)] end
  | c :: l' =>
      if py_isspace c
      then match cur with
           | [] => split_aux l' []
           | _ => string_of_list_ascii (rev cur) :: split_aux l' []
           end
      else split_aux l' (c :: cur)
  end.

Definition py_split (s : string) : list string := split_aux (list_ascii_of_string s) [].

(** [sep.join(l)] *)
Fixpoint py_join (sep : string) (l : list string) : string :=
  match l with
  | [] => ""
  | [x] => x
  | x :: l' => x ++ sep ++ py_join sep l'
  end.

(** The line boundaries of [str.splitlines] below U+0100: \n, \v, \f, \r,
    U+001C..U+001E and U+0085. *)
Definition is_line_boundary (c : ascii) : bool :=
  let n := code c in
  ((10 <=? n) && (n <=? 13)) || ((28 <=? n) && (n <=? 30)) || (n =? 133).

(** [s.splitlines()]: [after_cr] is set right after a \r, so that \r\n
    is one boundary; a final boundary opens no empty line. *)
Fixpoint splitlines_aux (l : list ascii) (cur : list ascii) (after_cr : bool) : list string :=
  match l with
  | [] => match cur with [] => [] | _ => [string_of_list_ascii (rev cur)] end
  | c :: l' =>
      if after_cr && (code c =? 10) then splitlines_aux l' cur false
      else if is_line_boundary c
      then string_of_list_ascii (rev cur) :: splitlines_aux l' [] (code c =? 13)
      else splitlines_aux l' (c :: cur) false
  end.

Definition py_splitlines (s : string) : list string :=
  splitlines_aux (list_ascii_of_string s) [] false.

(** [c.isalnum()] below U+0100: the letters, the decimal digits and the
    numeric U+00B2, U+00B3, U+00B9, U+00BC..U+00BE. *)
Definition py_isalnum_char (c : ascii) : bool :=
  let n := code c in
  ((48 <=? n) && (n <=? 57)) || ((65 <=? n) && (n <=? 90)) || ((97 <=? n) && (n <=? 122))
  || (n =? 170) || (n =? 178) || (n =? 179) || (n =? 181) || (n =? 185) || (n =? 186)
  || ((188 <=? n) && (n <=? 190)) || ((192 <=? n) && (n <=? 214))
  || ((216 <=? n) && (n <=? 246)) || ((248 <=? n) && (n <=? 255)).

(** [s.isalnum()]: false on the empty string. *)
Definition py_isalnum (s : string) : bool :=
  match s with EmptyString => false | _ => forallb py_isalnum_char (list_ascii_of_string s) end.

(** [s.upper()] below U+0100: U+00DF becomes "SS"; U+00B5 and U+00FF,
    whose capitals lie above U+00FF, are kept. *)
Definition upper_char (c : ascii) : list ascii :=
  let n := code c in
  if ((97 <=? n) && (n <=? 122)) || ((224 <=? n) && (n <=? 254) && negb (n =? 247))
  then [ascii_of_nat (Z.to_nat (n - 32))]
  else if n =? 223 then ["S"%char; "S"%char] else [c].

Definition py_upper (s : string) : string :=
  string_of_list_ascii (flat_map upper_char (list_ascii_of_string s)).

(** A character of the class [[A-Z0-9]]. *)
Definition is_AZ09 (c : ascii) : bool :=
  let n := code c in ((65 <=? n) && (n <=? 90)) || ((48 <=? n) && (n <=? 57)).

(** A [ValueError] raised by a pydantic validator, or a failed field
    constraint, reaches the caller as a [ValidationError]. *)
Definition ValidationError (msg : string) : string := "ValidationError: " ++ msg.

(** A [ValueError] raised outside validation. *)
Definition ValueError (msg : string) : string := "ValueError: " ++ msg.

(** Whether no character of a list is whitespace. *)
Definition no_space (l : list ascii) : bool := forallb (fun x => negb (py_isspace x)) l.

(** A word of [str.split()]: non-empty, without whitespace. *)
Definition word (w : string) : Prop :=
  list_ascii_of_string w <> [] /\ no_space (list_ascii_of_string w) = true.

(** Whether no character of a list is a line boundary. *)
Definition no_boundary (l : list ascii) : bool := forallb (fun x => negb (is_line_boundary x)) l.

(** ** Text that lxml accepts *)

(** lxml's check of a [str] set as text or as an attribute value
    ([_utf8]): a control character other than tab, line feed and carriage
    return is refused; U+007F and above pass. *)
Definition xml_char_ok (c : ascii) : bool :=
  let n := code c in (n =? 9) || (n =? 10) || (n =? 13) || (32 <=? n).

Definition xml_compatible (s : string) : bool := forallb xml_char_ok (list_ascii_of_string s).

Definition msg_xml_text :=
  "All strings must be XML compatible: Unicode or ASCII, no NULL bytes or control characters".

(** [ET.SubElement(root, t, attrib=a).text = s] for a [str] field [s]:
    lxml raises a [ValueError] on a value it refuses. *)
Definition text_leaf (t : string) (a : list (string * string)) (s : string) : py_result Element :=
  if forallb (fun kv => xml_compatible (snd kv)) a && xml_compatible s
  then Ok (leaf t a s) else Error (ValueError msg_xml_text).

(** Running a call that may raise, then the rest of the code with its
    result; a raised exception propagates. *)
Definition py_bind {A B} (r : py_result A) (f : A -> py_result B) : py_result B :=
  match r with Ok a => f a | Error e => Error e end.

Notation "'let?' x ':=' r 'in' f" := (py_bind r (fun x => f))
  (at level 200, x ident, r at level 100, f at level 200, right associativity).

(** [for r in l: root.append(r)] where each [r] comes from a call that
    may raise: the first exception stops the loop. *)
Fixpoint append_results (root : Element) (l : list (py_result Element)) : py_result Element :=
  match l with
  | [] => Ok root
  | r :: l' => let? el := r in append_results (append root el) l'
  end.

(** [str(e)] for an exception written "Type: message": the message. *)
Fixpoint str_exn (e : string) : string :=
  match e with
  | EmptyString => EmptyString
  | String c r =>
      if Ascii.eqb c ":" then
        match r with
        | String d m => if Ascii.eqb d " " then m else str_exn r
        | EmptyString => EmptyString
        end
      else str_exn r
  end.

(** [isinstance(e, ValueError)]: pydantic's [ValidationError] is one. *)
Definition is_value_error (e : string) : bool :=
  String.prefix "ValueError: " e || String.prefix "ValidationError: " e.

(** ** Note.py *)
Module Note.
Record Note := mk { content : string; subject_code : option string }.

(** [Note.to_xml]: the profile is unused; nothing catches lxml's
    [ValueError]. *)
Definition to_xml (self : Note) (element_name : string) (_profile : InvoiceProfile)
  : py_result Element :=
  let root := new_element (qname RAM element_name) in
  let? content_element := text_leaf (qname RAM "Content") [] (content self) in
  let root := append root content_element in
  match subject_code self with
  | Some c => if str_truthy (Some c)
              then let? subject_element := text_leaf (qname RAM "SubjectCode") [] c in
                   Ok (append root subject_element)
              else Ok root
  | None => Ok root
  end.

(** [validate_content] *)
Definition validate_content (value : string) : py_result string :=
  let value := py_join " " (py_split value) in
  if Nat.ltb (String.length (py_strip value)) 1
  then Error (ValidationError "Note content cannot be empty") else
  if existsb (fun line => Nat.ltb 200 (String.length line)) (py_splitlines value)
  then Error (ValidationError "Note content contains lines that are too long") else
  Ok value.

(** [validate_subject_code] *)
Definition validate_subject_code (value : option string) : py_result (option string) :=
  match value with
  | None => Ok None
  | Some v =>
      let v := py_upper v in
      if negb (py_isalnum v)
      then Error (ValidationError "Subject code must contain only letters and numbers") else
      if Nat.ltb 3 (String.length v)
      then Error (ValidationError "Subject code cannot exceed 3 characters") else
      Ok (Some v)
  end.

(** [pattern=r'^[A-Z0-9]{1,3}$'] as pydantic-core's regex matches it. *)
Definition subject_pattern (s : string) : bool :=
  let l := list_ascii_of_string s in
  Nat.leb 1 (length l) && Nat.leb (length l) 3 && forallb is_AZ09 l.

(** The field [content]: [str_strip_whitespace], [min_length=1] and
    [max_length=1000], then [validate_content]. *)
Definition content_field (v : string) : py_result string :=
  let v := rust_trim v in
  if Nat.ltb (String.length v) 1 then Error (ValidationError "string_too_short") else
  if Nat.ltb 1000 (String.length v) then Error (ValidationError "string_too_long") else
  validate_content v.

(** The field [subject_code]: [None] goes to the validator as is; a
    string is stripped, checked against [max_length=3] and the pattern,
    then validated. *)
Definition subject_code_field (v : option string) : py_result (option string) :=
  match v with
  | None => validate_subject_code None
  | Some s =>
      let s := rust_trim s in
      if Nat.ltb 3 (String.length s) then Error (ValidationError "string_too_long") else
      if negb (subject_pattern s) then Error (ValidationError "string_pattern_mismatch") else
      validate_subject_code (Some s)
  end.

(** [Note(content=..., subject_code=...)]; when both fields fail, the
    error of [content] is the one kept. *)
Definition construct (content : string) (subject_code : option string) : py_result Note :=
  match content_field content with
  | Error e => Error e
  | Ok c =>
      match subject_code_field subject_code with
      | Error e => Error e
      | Ok sc => Ok (mk c sc)
      end
  end.
End Note.

(** ** ExchangedDocument.py *)
Module ExchangedDocument.
Record ExchangedDocument := mk
  { id : string
  ; type_code : string
  ; issue_date_time : datetime
  ; included_notes : option (list Note.Note) }.

(** [ExchangedDocument.to_xml]. Its [except] clause names only
    [XMLSyntaxError] and [UnicodeEncodeError], so lxml's [ValueError] on
    the id, the type code or a note propagates as it is. *)
Definition to_xml (self : ExchangedDocument) (element_name : string)
  (profile : InvoiceProfile) : py_result Element :=
  let root := new_element (qname RSM element_name) in
  let? id_element := text_leaf (qname RAM "ID") [] (id self) in
  let root := append root id_element in
  let? type_element := text_leaf (qname RAM "TypeCode") [] (type_code self) in
  let root := append root type_element in
  let issue_dt := append (new_element (qname RAM "IssueDateTime"))
                    (leaf (qname UDT "DateTimeString") [("format", "102")]
                       (strftime_Ymd (issue_date_time self))) in
  let root := append root issue_dt in
  if prof_ge profile BASICWL && list_truthy (included_notes self)
  then match included_notes self with
       | Some notes =>
           append_results root (map (fun note => Note.to_xml note "IncludedNote" profile) notes)
       | None => Ok root
       end
  else Ok root.

Definition MAX_ID_LENGTH : nat := 50.
Definition MAX_NOTES : nat := 10.
Definition MIN_DATE := mk_datetime 2000 1 1 0 0 0.
Definition MAX_DATE := mk_datetime 2100 12 31 0 0 0.

(** A character of the class [[A-Za-z0-9\-/_\.\(\)]]. *)
Definition id_char (c : ascii) : bool :=
  let n := code c in
  ((65 <=? n) && (n <=? 90)) || ((97 <=? n) && (n <=? 122)) || ((48 <=? n) && (n <=? 57))
  || (n =? 45) || (n =? 47) || (n =? 95) || (n =? 46) || (n =? 40) || (n =? 41).

(** One or more characters of the class. *)
Definition id_chars (l : list ascii) : bool :=
  match l with [] => false | _ => forallb id_char l end.

(** [re.match(ALLOWED_ID_PATTERN, v)]: [$] matches at the end of [v] or
    before a newline that ends it. *)
Definition ALLOWED_ID_PATTERN_matches (v : string) : bool :=
  let l := list_ascii_of_string v in
  id_chars l ||
  match rev l with
  | c :: r => (code c =? 10) && id_chars (rev r)
  | [] => false
  end.

Definition msg_id_empty := "Document ID cannot be empty".
Definition msg_id_chars :=
  "Document ID can only contain letters, numbers, and the following characters: -/_.()".
Definition msg_id_length := "Document ID length cannot exceed 50 characters".

(** [validate_id] *)
Definition validate_id (v : string) : py_result string :=
  let v := py_strip v in
  if String.eqb v "" then Error (ValidationError msg_id_empty) else
  if negb (ALLOWED_ID_PATTERN_matches v) then Error (ValidationError msg_id_chars) else
  if Nat.ltb MAX_ID_LENGTH (String.length v) then Error (ValidationError msg_id_length) else
  Ok v.

(** The field [id]: [max_length=MAX_ID_LENGTH] on the value as given,
    then [validate_id]. *)
Definition id_field (v : string) : py_result string :=
  if Nat.ltb MAX_ID_LENGTH (String.length v) then Error (ValidationError "string_too_long")
  else validate_id v.

Definition msg_date_range := "Issue date must be between 2000-01-01 and 2100-12-31".

(** [validate_issue_date_time]. The comparisons with the naive bounds come
    before the [tzinfo] test; the [TypeError] they raise on an aware
    value is not a [ValueError], so pydantic lets it through as is. *)
Definition validate_issue_date_time (v : pydatetime) : py_result pydatetime :=
  match dt_lt v MIN_DATE with
  | Error e => Error e
  | Ok true => Error (ValidationError msg_date_range)
  | Ok false =>
      match dt_gt v MAX_DATE with
      | Error e => Error e
      | Ok true => Error (ValidationError msg_date_range)
      | Ok false =>
          match tzinfo v with
          | Some _ => Ok (mk_pydatetime (naive v) (microsecond v) None)
          | None => Ok v
          end
      end
  end.

Definition set_included_notes (self : ExchangedDocument) (notes : option (list Note.Note)) :=
  mk (id self) (type_code self) (issue_date_time self) notes.

Definition msg_too_many_notes := "Number of notes cannot exceed 10".
Definition msg_duplicate_notes := "Duplicate notes are not allowed".
Definition msg_max_notes := "Maximum number of notes (10) exceeded".

(** [@model_validator(mode='after') validate_notes]; [len(set(...))] is
    the number of distinct contents. *)
Definition validate_notes (self : ExchangedDocument) : py_result ExchangedDocument :=
  match included_notes self with
  | Some notes =>
      if list_truthy (Some notes) then
        if Nat.ltb MAX_NOTES (length notes) then Error (ValidationError msg_too_many_notes) else
        let note_contents := map Note.content notes in
        if negb (Nat.eqb (length note_contents) (length (nodup string_dec note_contents)))
        then Error (ValidationError msg_duplicate_notes)
        else Ok self
      else Ok self
  | None => Ok self
  end.

(** [add_note]: the outcome and the document after the call. The
    assignment [self.included_notes = []] is validated (it always passes)
    and stays done when the call then raises; [append] mutates the list
    in place, which pydantic does not validate. *)
Definition add_note (self : ExchangedDocument) (content : string) (subject_code : option string)
  : py_result unit * ExchangedDocument :=
  let self := match included_notes self with
              | None => set_included_notes self (Some [])
              | Some _ => self
              end in
  let notes := match included_notes self with Some l => l | None => [] end in
  if Nat.leb MAX_NOTES (length notes) then (Error (ValueError msg_max_notes), self) else
  match Note.construct content subject_code with
  | Error e => (Error e, self)
  | Ok new_note => (Ok tt, set_included_notes self (Some (notes ++ [new_note])%list))
  end.

(** An attribute read on an instance: a field value, or a class attribute
    (a constant or a method) known by its name. *)
Inductive attr_value :=
  | AStr (s : string)
  | ADate (d : datetime)
  | ANotes (n : option (list Note.Note))
  | AClass (name : string).

Definition class_attribute_names : list string :=
  ["MAX_ID_LENGTH"; "MAX_NOTES"; "ALLOWED_ID_PATTERN"; "MIN_DATE"; "MAX_DATE";
   "validate_id"; "validate_issue_date_time"; "validate_notes"; "add_note";
   "to_xml"; "__str__"; "create_invoice"].

Section Getattr.
(** The names inherited from [XMLBaseModel], pydantic's [BaseModel] and
    [object]. *)
Variable inherited_names : list string.

(** [getattr(doc, name)]: the fields of the instance, then the class and
    its bases; pydantic's [__getattr__] raises [AttributeError] for any
    other name (with [extra='forbid'] and no private attribute declared,
    nothing else can be stored on the instance under such a name). *)
Definition getattr (self : ExchangedDocument) (name : string) : py_result attr_value :=
  if String.eqb name "id" then Ok (AStr (id self))
  else if String.eqb name "type_code" then Ok (AStr (type_code self))
  else if String.eqb name "issue_date_time" then Ok (ADate (issue_date_time self))
  else if String.eqb name "included_notes" then Ok (ANotes (included_notes self))
  else if existsb (String.eqb name) (class_attribute_names ++ inherited_names)%list
  then Ok (AClass name)
  else Error ("AttributeError: 'ExchangedDocument' object has no attribute '" ++ name ++ "'").
End Getattr.
End ExchangedDocument.

(** ** ExchangedDocumentContext.py *)
Module ExchangedDocumentContext.
Record ExchangedDocumentContext := mk
  { business_process_specified_document_context_parameter : option string
  ; guideline_specified_document_context_parameter : InvoiceProfile }.

(** [ExchangedDocumentContext.to_xml] *)
Definition to_xml (self : ExchangedDocumentContext) (element_name : string)
  (profile : InvoiceProfile) : Element :=
  let root := new_element (qname RSM element_name) in
  let root :=
    match business_process_specified_document_context_parameter self with
    | Some b =>
        if str_truthy (Some b)
        then append root
               (append (new_element (qname RAM "BusinessProcessSpecifiedDocumentContextParameter"))
                  (leaf (qname RAM "ID") [] b))
        else root
    | None => root
    end in
  append root
    (append (new_element (qname RAM "GuidelineSpecifiedDocumentContextParameter"))
       (leaf (qname RAM "ID") [] (value profile))).

(** [BUSINESS_PROCESS_ID_PATTERN] is the pattern of [ALLOWED_ID_PATTERN]. *)
Definition BUSINESS_PROCESS_ID_PATTERN_matches (v : string) : bool :=
  ExchangedDocument.ALLOWED_ID_PATTERN_matches v.

Definition MAX_BUSINESS_PROCESS_ID_LENGTH : nat := 50.

(** [validate_business_process_id] *)
Definition validate_business_process_id (v : option string) : py_result (option string) :=
  match v with
  | None => Ok None
  | Some v =>
      let v := py_strip v in
      if String.eqb v "" then
        Error (ValidationError "Business process ID cannot be empty if provided") else
      if negb (BUSINESS_PROCESS_ID_PATTERN_matches v) then
        Error (ValidationError ("Business process ID can only contain letters, numbers, "
                                ++ "and the following characters: -/_.()")) else
      if Nat.ltb MAX_BUSINESS_PROCESS_ID_LENGTH (String.length v) then
        Error (ValidationError "Business process ID length cannot exceed 50 characters") else
      Ok (Some v)
  end.

(** [ExchangedDocumentContext(...)]: [max_length] on the id as given, then
    [validate_business_process_id]; [validate_guideline] accepts every
    [InvoiceProfile]. *)
Definition construct (business_process_id : option string) (guideline : InvoiceProfile)
  : py_result ExchangedDocumentContext :=
  let checked :=
    match business_process_id with
    | Some b => if Nat.ltb MAX_BUSINESS_PROCESS_ID_LENGTH (String.length b)
                then Error (ValidationError "string_too_long")
                else validate_business_process_id business_process_id
    | None => validate_business_process_id None
    end in
  let? b := checked in Ok (mk b guideline).
End ExchangedDocumentContext.

(** ** SupplyChainEvent.py *)
Module SupplyChainEvent.
Record SupplyChainEvent := mk { occurrence_date : datetime }.

(** [SupplyChainEvent.to_xml]: the profile is unused. *)
Definition to_xml (self : SupplyChainEvent) (element_name : string)
  (_profile : InvoiceProfile) : Element :=
  let root := new_element (qname RAM element_name) in
  append root
    (append (new_element (qname RAM "OccurrenceDateTime"))
       (leaf (qname UDT "DateTimeString") [("format", "102")]
          (strftime_Ymd (occurrence_date self)))).

Definition msg_year_range := "Date must be between years 1900 and 2100".

(** [validate_occurrence_date]: the date at midnight, naive. *)
Definition validate_occurrence_date (value : pydatetime) : py_result datetime :=
  let v := naive value in
  if (year v <? 1900) || (2100 <? year v) then Error (ValidationError msg_year_range)
  else Ok (mk_datetime (year v) (month v) (day v) 0 0 0).

(** [SupplyChainEvent(occurrence_date=value)] *)
Definition construct (value : pydatetime) : py_result SupplyChainEvent :=
  match validate_occurrence_date value with
  | Ok d => Ok (mk d)
  | Error e => Error e
  end.

(** [datetime(d.year, d.month, d.day)] *)
Definition midnight (d : pydatetime) : datetime :=
  mk_datetime (year (naive d)) (month (naive d)) (day (naive d)) 0 0 0.

(** [is_future_event]; [now] stands for [datetime.now()]. Both sides of
    the comparison are naive, with no microseconds. *)
Definition is_future_event (self : SupplyChainEvent) (now : pydatetime)
  (reference_date : option pydatetime) : bool :=
  let reference_date := match reference_date with Some r => r | None => now end in
  let reference_date := midnight reference_date in
  lex_lt (dt_fields reference_date 0) (dt_fields (occurrence_date self) 0).

(** [is_same_day] *)
Definition is_same_day (self : SupplyChainEvent) (other_date : pydatetime) : bool :=
  (year (occurrence_date self) =? year (naive other_date))
  && (month (occurrence_date self) =? month (naive other_date))
  && (day (occurrence_date self) =? day (naive other_date)).
End SupplyChainEvent.

(** ** TradeTax.py *)
Module TradeTax.
Record TradeTax := mk
  { calculated_amount : option float
  ; type_code : string
  ; exemption_reason : option string
  ; basis_amount : option float
  ; category_code : string
  ; exemption_reason_code : option string
  ; tax_point_date : option datetime
  ; due_date_type_code : option string
  ; rate_applicable_percent : option float }.

Section Render.
(** [str(x)] for a Python [float]. *)
Variable str_float : float -> string.

Definition opt_float_leaf (root : Element) (o : option float) (name : string) : Element :=
  match o with
  | Some x => if float_truthy o then append root (leaf (qname RAM name) [] (str_float x)) else root
  | None => root
  end.

Definition opt_str_leaf (root : Element) (o : option string) (name : string)
  : py_result Element :=
  match o with
  | Some s => if str_truthy o
              then let? el := text_leaf (qname RAM name) [] s in Ok (append root el)
              else Ok root
  | None => Ok root
  end.

(** [TradeTax.to_xml]; nothing catches lxml's [ValueError]. *)
Definition to_xml (self : TradeTax) (element_name : string) (profile : InvoiceProfile)
  : py_result Element :=
  let root := new_element (qname RAM element_name) in
  let root := opt_float_leaf root (calculated_amount self) "CalculatedAmount" in
  let? type_element := text_leaf (qname RAM "TypeCode") [] (type_code self) in
  let root := append root type_element in
  let? root := opt_str_leaf root (exemption_reason self) "ExemptionReason" in
  let root := opt_float_leaf root (basis_amount self) "BasisAmount" in
  let? category_element := text_leaf (qname RAM "CategoryCode") [] (category_code self) in
  let root := append root category_element in
  let? root := opt_str_leaf root (exemption_reason_code self) "ExemptionReasonCode" in
  let root :=
    if prof_ge profile EN16931
    then match tax_point_date self with
         | Some d =>
             append root
               (append (new_element (qname RAM "TaxPointDate"))
                  (leaf (qname UDT "DateString") [("format", "102")] (strftime_Ymd d)))
         | None => root
         end
    else root in
  let? root := opt_str_leaf root (due_date_type_code self) "DueDateTypeCode" in
  Ok (opt_float_leaf root (rate_applicable_percent self) "RateApplicablePercent").
End Render.
End TradeTax.

(** ** TradeSettlementHeaderMonetarySummation.py *)
Module TradeSettlementHeaderMonetarySummation.
Local Open Scope float_scope.

Record TradeSettlementHeaderMonetarySummation := mk
  { line_total_amount : option float
  ; charge_total_amount : option float
  ; allowance_total_amount : option float
  ; tax_basis_total_amount : float
  ; tax_total_amount : option float
  ; rounding_amount : option float
  ; tax_currency_code : option string
  ; grand_total_amount : float
  ; total_prepaid_amount : option float
  ; due_payable_amount : float }.

(** Python's [(x or 0)] on an [Optional[float]]: [None] and the falsy
    zeros give [0]. *)
Definition or0 (o : option float) : float :=
  match o with Some x => if float_truthy o then x else 0 | None => 0 end.

Definition is_present (o : option float) : bool :=
  match o with Some _ => true | None => false end.

Definition msg_rule1 := "Tax basis total amount must equal: line total + charges - allowances".
Definition msg_rule2 := "Grand total must equal: tax basis + tax total + rounding amount".
Definition msg_rule3 := "Due payable amount must equal: grand total - prepaid amount".

Definition ValueError (msg : string) : string := "ValueError: " ++ msg.

(** [@model_validator(mode='after') validate_amounts]: the three checks in
    order, each raising on [abs(expected - declared) > 0.02]. *)
Definition validate_amounts (self : TradeSettlementHeaderMonetarySummation)
  : py_result TradeSettlementHeaderMonetarySummation :=
  let rule1_fails :=
    match line_total_amount self, charge_total_amount self, allowance_total_amount self with
    | Some l, Some _, Some _ =>
        let expected_tax_basis :=
          l + or0 (charge_total_amount self) - or0 (allowance_total_amount self) in
        0.02 <? abs (expected_tax_basis - tax_basis_total_amount self)
    | _, _, _ => false
    end in
  if rule1_fails then Error (ValueError msg_rule1) else
  let expected_grand_total :=
    tax_basis_total_amount self + or0 (tax_total_amount self) + or0 (rounding_amount self) in
  if 0.02 <? abs (expected_grand_total - grand_total_amount self)
  then Error (ValueError msg_rule2) else
  let expected_due_payable := grand_total_amount self - or0 (total_prepaid_amount self) in
  if 0.02 <? abs (expected_due_payable - due_payable_amount self)
  then Error (ValueError msg_rule3) else
  Ok self.

(** The per-field constraints pydantic checks before the model validator:
    [ge=0] on five amounts ([x >= 0], false for NaN) and the currency
    code's [min_length=3, max_length=3, pattern='^[A-Z]{3}$']. *)
Definition ge0 (x : float) : bool := 0 <=? x.

Definition opt_ge0 (o : option float) : bool :=
  match o with Some x => ge0 x | None => true end.

Definition upper (c : ascii) : bool :=
  (65 <=? Z.of_nat (nat_of_ascii c))%Z && (Z.of_nat (nat_of_ascii c) <=? 90)%Z.

Fixpoint all_upper (s : string) : bool :=
  match s with EmptyString => true | String c s' => upper c && all_upper s' end.

Definition currency_ok (o : option string) : bool :=
  match o with
  | Some c => Nat.eqb (String.length c) 3 && all_upper c
  | None => true
  end.

Definition field_checks (self : TradeSettlementHeaderMonetarySummation) : bool :=
  opt_ge0 (charge_total_amount self) && opt_ge0 (allowance_total_amount self)
  && ge0 (tax_basis_total_amount self) && opt_ge0 (tax_total_amount self)
  && currency_ok (tax_currency_code self) && opt_ge0 (total_prepaid_amount self).

(** Construction: field validation, then [validate_amounts]. *)
Definition construct (self : TradeSettlementHeaderMonetarySummation)
  : py_result TradeSettlementHeaderMonetarySummation :=
  if field_checks self then validate_amounts self else Error "ValidationError".

Section Render.
(** [f"{x:.2f}"] *)
Variable fmt_2f : float -> string.

(** [if x is not None: ET.SubElement(root, ram + name).text = f"{x:.2f}"] *)
Definition amount_leaf (root : Element) (name : string) (o : option float) : Element :=
  match o with
  | Some x => append root (leaf (qname RAM name) [] (fmt_2f x))
  | None => root
  end.

(** [{"currencyID": self.tax_currency_code} if self.tax_currency_code else {}] *)
Definition currency_attrib (c : option string) : list (string * string) :=
  match c with
  | Some code => if str_truthy (Some code) then [("currencyID", code)] else []
  | None => []
  end.

(** [TradeSettlementHeaderMonetarySummation.to_xml] *)
Definition to_xml (self : TradeSettlementHeaderMonetarySummation) (element_name : string)
  (profile : InvoiceProfile) : Element :=
  let root := new_element (qname RAM element_name) in
  let root :=
    if prof_ge profile BASICWL then
      let root := amount_leaf root "LineTotalAmount" (line_total_amount self) in
      let root := amount_leaf root "ChargeTotalAmount" (charge_total_amount self) in
      amount_leaf root "AllowanceTotalAmount" (allowance_total_amount self)
    else root in
  let root := append root (leaf (qname RAM "TaxBasisTotalAmount") []
                             (fmt_2f (tax_basis_total_amount self))) in
  let root :=
    match tax_total_amount self with
    | Some t => append root (leaf (qname RAM "TaxTotalAmount")
                               (currency_attrib (tax_currency_code self)) (fmt_2f t))
    | None => root
    end in
  let root :=
    if prof_ge profile EN16931 then amount_leaf root "RoundingAmount" (rounding_amount self)
    else root in
  let root := append root (leaf (qname RAM "GrandTotalAmount") []
                             (fmt_2f (grand_total_amount self))) in
  let root :=
    if prof_ge profile BASICWL then amount_leaf root "TotalPrepaidAmount" (total_prepaid_amount self)
    else root in
  append root (leaf (qname RAM "DuePayableAmount") [] (fmt_2f (due_payable_amount self))).
End Render.
End TradeSettlementHeaderMonetarySummation.

(** *** The reconciliation rules as the specification words them *)
Module MonetaryRules.
Import TradeSettlementHeaderMonetarySummation.
Local Open Scope float_scope.

Definition absent_as_0 (o : option float) : float :=
  match o with Some x => x | None => 0 end.

(** Rule 1, 2 and 3 with [|d| <= 0.02], evaluated left to right in binary64
    arithmetic; rule 1 only when the three line-level totals are present. *)
Definition rule1 (s : TradeSettlementHeaderMonetarySummation) : bool :=
  match line_total_amount s, charge_total_amount s, allowance_total_amount s with
  | Some l, Some c, Some a => abs (l + c - a - tax_basis_total_amount s) <=? 0.02
  | _, _, _ => true
  end.

Definition rule2 (s : TradeSettlementHeaderMonetarySummation) : bool :=
  abs (tax_basis_total_amount s + absent_as_0 (tax_total_amount s)
       + absent_as_0 (rounding_amount s) - grand_total_amount s) <=? 0.02.

Definition rule3 (s : TradeSettlementHeaderMonetarySummation) : bool :=
  abs (grand_total_amount s - absent_as_0 (total_prepaid_amount s)
       - due_payable_amount s) <=? 0.02.

Definition rules (s : TradeSettlementHeaderMonetarySummation) : bool :=
  rule1 s && rule2 s && rule3 s.

(** [math.isfinite] *)
Definition isfinite (x : float) : bool :=
  match Prim2SF x with S754_zero _ | S754_finite _ _ _ => true | _ => false end.

Definition opt_finite (o : option float) : bool :=
  match o with Some x => isfinite x | None => true end.

Definition amounts_finite (s : TradeSettlementHeaderMonetarySummation) : bool :=
  opt_finite (line_total_amount s) && opt_finite (charge_total_amount s)
  && opt_finite (allowance_total_amount s) && isfinite (tax_basis_total_amount s)
  && opt_finite (tax_total_amount s) && opt_finite (rounding_amount s)
  && isfinite (grand_total_amount s) && opt_finite (total_prepaid_amount s)
  && isfinite (due_payable_amount s).

(** The same rules read in exact rational arithmetic on the stored
    doubles, with the tolerance 0.02 = 1/50. *)
Definition sf_to_Q (f : spec_float) : option Q :=
  match f with
  | S754_zero _ => Some 0%Q
  | S754_finite sg m e =>
      let n := if sg then Z.neg m else Z.pos m in
      match e with
      | Z.neg k => Some (Qmake n (Pos.pow 2 k))
      | _ => Some (Qmake (n * 2 ^ e) 1)
      end
  | _ => None
  end.

Definition toQ (x : float) : Q :=
  match sf_to_Q (Prim2SF x) with Some q => q | None => 0%Q end.

Definition absent_as_0Q (o : option float) : Q :=
  match o with Some x => toQ x | None => 0%Q end.

Definition tolQ : Q := Qmake 1 50.

Definition rulesQ (s : TradeSettlementHeaderMonetarySummation) : bool :=
  (match line_total_amount s, charge_total_amount s, allowance_total_amount s with
   | Some l, Some c, Some a =>
       Qle_bool (Qabs (toQ l + toQ c - toQ a - toQ (tax_basis_total_amount s))) tolQ
   | _, _, _ => true
   end)
  && Qle_bool (Qabs (toQ (tax_basis_total_amount s) + absent_as_0Q (tax_total_amount s)
                     + absent_as_0Q (rounding_amount s) - toQ (grand_total_amount s))) tolQ
  && Qle_bool (Qabs (toQ (grand_total_amount s) - absent_as_0Q (total_prepaid_amount s)
                     - toQ (due_payable_amount s))) tolQ.
End MonetaryRules.
(** ** Nodes whose own content no claim inspects *)

(** Any other [XMLBaseModel] node (TradeParty, ReferencedDocument,
    SpecifiedPeriod, ...): it is known only through its [to_xml], none of
    which assigns an attribute of [self]; a render may raise. *)
Record XMLNode := mk_node { node_to_xml : string -> InvoiceProfile -> py_result Element }.

(** ** HeaderTradeDelivery.py *)
Module HeaderTradeDelivery.
Record HeaderTradeDelivery := mk
  { ship_to_trade_party : option XMLNode
  ; actual_delivery_supply_chain_event : option SupplyChainEvent.SupplyChainEvent
  ; despatch_advice_referenced_document : option XMLNode
  ; receiving_advice_referenced_document : option XMLNode
    (** the private attribute [self._current_profile]; [None] while unset *)
  ; _current_profile : option InvoiceProfile }.

(** [self._current_profile = profile] *)
Definition set_current_profile (self : HeaderTradeDelivery) (p : InvoiceProfile) :=
  mk (ship_to_trade_party self) (actual_delivery_supply_chain_event self)
     (despatch_advice_referenced_document self)
     (receiving_advice_referenced_document self) (Some p).

(** [_append_element_if_valid] *)
Definition _append_element_if_valid {A}
  (render : A -> string -> InvoiceProfile -> py_result Element)
  (root : Element) (field_value : option A) (element_name : string)
  (profile min_profile : InvoiceProfile) : py_result Element :=
  match field_value with
  | Some v => if prof_ge profile min_profile
              then let? el := render v element_name profile in Ok (append root el)
              else Ok root
  | None => Ok root
  end.

(** [SupplyChainEvent.to_xml], which does not raise. *)
Definition event_to_xml (e : SupplyChainEvent.SupplyChainEvent) (element_name : string)
  (profile : InvoiceProfile) : py_result Element :=
  Ok (SupplyChainEvent.to_xml e element_name profile).

(** [HeaderTradeDelivery.to_xml]: returns the outcome and the node as it
    is after the call; [_current_profile] is set before any child is
    rendered, so it stays set when a child raises. *)
Definition to_xml (self : HeaderTradeDelivery) (element_name : string)
  (profile : InvoiceProfile) : py_result Element * HeaderTradeDelivery :=
  let root := new_element (qname RAM element_name) in
  let self := set_current_profile self profile in
  (let? root := _append_element_if_valid node_to_xml root (ship_to_trade_party self)
                  "ShipToTradeParty" profile BASICWL in
   let? root := _append_element_if_valid event_to_xml root
                  (actual_delivery_supply_chain_event self)
                  "ActualDeliverySupplyChainEvent" profile BASICWL in
   let? root := _append_element_if_valid node_to_xml root
                  (despatch_advice_referenced_document self)
                  "DespatchAdviceReferencedDocument" profile BASICWL in
   _append_element_if_valid node_to_xml root
     (receiving_advice_referenced_document self)
     "ReceivingAdviceReferencedDocument" profile EN16931,
   self).

Definition msg_basicwl_fields :=
  "Ship-to, delivery event, and dispatch advice are only allowed in BASICWL profile and above".
Definition msg_receiving_advice :=
  "Receiving advice document is only allowed in EN16931 profile and above".

(** [@model_validator(mode='after') validate_profile_specific_fields]:
    [getattr(self, '_current_profile', None)]; a profile member is truthy,
    and so is every model instance in [any([...])]. *)
Definition validate_profile_specific_fields (self : HeaderTradeDelivery)
  : py_result HeaderTradeDelivery :=
  match _current_profile self with
  | None => Ok self
  | Some profile =>
      if prof_lt profile BASICWL
         && (is_some (ship_to_trade_party self)
             || is_some (actual_delivery_supply_chain_event self)
             || is_some (despatch_advice_referenced_document self))
      then Error (ValidationError msg_basicwl_fields)
      else if prof_lt profile EN16931 && is_some (receiving_advice_referenced_document self)
      then Error (ValidationError msg_receiving_advice)
      else Ok self
  end.
End HeaderTradeDelivery.

(** ** HeaderTradeSettlement.py *)
Module HeaderTradeSettlement.
Record HeaderTradeSettlement := mk
  { invoice_currency_code : string
  ; specified_trade_settlement_header_monetary_summation : XMLNode
  ; creditor_reference_id : option string
  ; payment_reference : option string
  ; tax_currency_code : option string
  ; payee_trade_party : option XMLNode
  ; specified_trade_settlement_payment_means : option (list XMLNode)
  ; applicable_trade_tax : option (list XMLNode)
  ; billing_specified_period : option XMLNode
  ; specified_trade_allowance_charge : option (list XMLNode)
  ; specified_trade_payment_terms : option XMLNode
  ; invoice_referenced_documents : option (list XMLNode)
  ; receivable_specified_trade_accounting_account : option XMLNode
  ; _current_profile : option InvoiceProfile }.

Definition set_current_profile (self : HeaderTradeSettlement) (p : InvoiceProfile) :=
  mk (invoice_currency_code self)
     (specified_trade_settlement_header_monetary_summation self)
     (creditor_reference_id self) (payment_reference self) (tax_currency_code self)
     (payee_trade_party self) (specified_trade_settlement_payment_means self)
     (applicable_trade_tax self) (billing_specified_period self)
     (specified_trade_allowance_charge self) (specified_trade_payment_terms self)
     (invoice_referenced_documents self)
     (receivable_specified_trade_accounting_account self) (Some p).

Definition _add_text_element (root : Element) (v : option string) (element_name : string)
  (profile min_profile : InvoiceProfile) : py_result Element :=
  match v with
  | Some s => if prof_ge profile min_profile
              then let? el := text_leaf (qname RAM element_name) [] s in Ok (append root el)
              else Ok root
  | None => Ok root
  end.

Definition _add_object_element (root : Element) (obj : option XMLNode)
  (element_name : string) (profile min_profile : InvoiceProfile) : py_result Element :=
  match obj with
  | Some o => if prof_ge profile min_profile
              then let? el := node_to_xml o element_name profile in Ok (append root el)
              else Ok root
  | None => Ok root
  end.

Definition _add_list_elements (root : Element) (items : option (list XMLNode))
  (element_name : string) (profile min_profile : InvoiceProfile) : py_result Element :=
  match items with
  | Some l => if prof_ge profile min_profile
              then append_results root (map (fun it => node_to_xml it element_name profile) l)
              else Ok root
  | None => Ok root
  end.

(** [HeaderTradeSettlement.to_xml]: returns the outcome and the node as
    it is after the call; [_current_profile] is set before any child is
    rendered. *)
Definition to_xml (self : HeaderTradeSettlement) (element_name : string)
  (profile : InvoiceProfile) : py_result Element * HeaderTradeSettlement :=
  let root := new_element (qname RAM element_name) in
  let self := set_current_profile self profile in
  (let? root := _add_text_element root (creditor_reference_id self) "CreditorReferenceID" profile BASICWL in
   let? root := _add_text_element root (payment_reference self) "PaymentReference" profile BASICWL in
   let? root := _add_text_element root (tax_currency_code self) "TaxCurrencyCode" profile BASICWL in
   let? currency_element :=
     text_leaf (qname RAM "InvoiceCurrencyCode") [] (invoice_currency_code self) in
   let root := append root currency_element in
   let? root := _add_object_element root (payee_trade_party self) "PayeeTradeParty" profile BASICWL in
   let? root := _add_object_element root (billing_specified_period self) "BillingSpecifiedPeriod" profile BASICWL in
   let? root := _add_object_element root (specified_trade_payment_terms self) "SpecifiedTradePaymentTerms" profile BASICWL in
   let? root := _add_list_elements root (specified_trade_settlement_payment_means self)
                  "SpecifiedTradeSettlementPaymentMeans" profile BASICWL in
   let? root := _add_list_elements root (applicable_trade_tax self) "ApplicableTradeTax" profile BASICWL in
   let? root := _add_list_elements root (specified_trade_allowance_charge self)
                  "SpecifiedTradeAllowanceCharge" profile BASICWL in
   let? root := _add_list_elements root (invoice_referenced_documents self)
                  "InvoiceReferencedDocument" profile BASICWL in
   let? summation_element :=
     node_to_xml (specified_trade_settlement_header_monetary_summation self)
       "SpecifiedTradeSettlementHeaderMonetarySummation" profile in
   let root := append root summation_element in
   _add_object_element root (receivable_specified_trade_accounting_account self)
     "ReceivableSpecifiedTradeAccountingAccount" profile BASICWL,
   self).

(** The list [basicwl_fields] of [validate_profile_specific_fields]: each
    name, with whether its value is not [None]. *)
Definition basicwl_fields (self : HeaderTradeSettlement) : list (string * bool) :=
  [("creditor_reference_id", is_some (creditor_reference_id self));
   ("payment_reference", is_some (payment_reference self));
   ("tax_currency_code", is_some (tax_currency_code self));
   ("payee_trade_party", is_some (payee_trade_party self));
   ("specified_trade_settlement_payment_means",
      is_some (specified_trade_settlement_payment_means self));
   ("applicable_trade_tax", is_some (applicable_trade_tax self));
   ("billing_specified_period", is_some (billing_specified_period self));
   ("specified_trade_allowance_charge", is_some (specified_trade_allowance_charge self));
   ("specified_trade_payment_terms", is_some (specified_trade_payment_terms self));
   ("invoice_referenced_documents", is_some (invoice_referenced_documents self));
   ("receivable_specified_trade_accounting_account",
      is_some (receivable_specified_trade_accounting_account self))].

(** [@model_validator(mode='after') validate_profile_specific_fields]:
    below BASICWL, the first field that is not [None] raises. *)
Definition validate_profile_specific_fields (self : HeaderTradeSettlement)
  : py_result HeaderTradeSettlement :=
  match _current_profile self with
  | None => Ok self
  | Some profile =>
      if prof_lt profile BASICWL then
        match find snd (basicwl_fields self) with
        | Some (field_name, _) =>
            Error (ValidationError (field_name ++ " is only allowed in BASICWL profile and above"))
        | None => Ok self
        end
      else Ok self
  end.
(** The number of items of an optional list. *)
Definition opt_length (o : option (list XMLNode)) : nat :=
  match o with Some l => length l | None => 0 end.
End HeaderTradeSettlement.


(** ** DocumentLineDocument.py, SupplyChainTradeLineItem.py, HeaderTradeAgreement.py *)

Module DocumentLineDocument.
(** [line_id: int], validated to [0 < line_id < 1000000]. *)
Record DocumentLineDocument := mk { line_id : Z }.

(** [validate_line_id]: the value is an [int] by then, so the [None] and
    [isinstance] tests never raise. *)
Definition validate_line_id (v : Z) : py_result Z :=
  if v <=? 0 then Error (ValidationError "Line ID must be a positive number") else
  if 1000000 <=? v then Error (ValidationError "Line ID is too large (maximum: 999999)") else
  Ok v.

(** The field [line_id]: [gt=0] and [lt=1000000], then [validate_line_id]. *)
Definition line_id_field (v : Z) : py_result Z :=
  if negb (0 <? v) then Error (ValidationError "greater_than") else
  if negb (v <? 1000000) then Error (ValidationError "less_than") else
  validate_line_id v.

(** [DocumentLineDocument.to_xml]; the record keeps only [line_id], the
    [included_note] is passed alongside. An exception of the note's
    [to_xml] is re-raised as a [ValueError]; the outer [except] clause
    names only [XMLSyntaxError] and [UnicodeEncodeError]. *)
Definition to_xml (self : DocumentLineDocument) (included_note : option Note.Note)
  (element_name : string) (profile : InvoiceProfile) : py_result Element :=
  let root := new_element (qname RAM element_name) in
  let root := append root (leaf (qname RAM "LineID") [] (str_int (line_id self))) in
  match included_note with
  | Some n =>
      match Note.to_xml n "IncludedNote" profile with
      | Ok note_element => Ok (append root note_element)
      | Error e => Error (ValueError ("Failed to create included note XML: " ++ str_exn e))
      end
  | None => Ok root
  end.
End DocumentLineDocument.

Module SupplyChainTradeLineItem.
(** The children appended by [to_xml] below its root (document line,
    product, line agreement, delivery and settlement) are kept abstract. *)
Record SupplyChainTradeLineItem := mk
  { associated_document_line_document : DocumentLineDocument.DocumentLineDocument
  ; line_item_content : InvoiceProfile -> py_result (list Element) }.

(** [SupplyChainTradeLineItem.to_xml]: [root = ET.Element(ram + element_name)]
    followed by its children, or the exception one of them raises. *)
Definition to_xml (self : SupplyChainTradeLineItem) (element_name : string)
  (profile : InvoiceProfile) : py_result Element :=
  let? content := line_item_content self profile in
  Ok (Elem (qname RAM element_name) [] [] None content).
End SupplyChainTradeLineItem.

Module HeaderTradeAgreement.
Record HeaderTradeAgreement :=
  mk { agreement_content : InvoiceProfile -> py_result (list Element) }.

(** [HeaderTradeAgreement.to_xml]: [root = ET.Element(ram + element_name)]
    followed by its children (buyer reference, trade parties, ...), or
    the exception one of them raises. *)
Definition to_xml (self : HeaderTradeAgreement) (element_name : string)
  (profile : InvoiceProfile) : py_result Element :=
  let? content := agreement_content self profile in
  Ok (Elem (qname RAM element_name) [] [] None content).
End HeaderTradeAgreement.

(** ** SupplyChainTradeTransaction.py *)
Module SupplyChainTradeTransaction.
Record SupplyChainTradeTransaction := mk
  { included_supply_chain_trade_line_items
      : option (list SupplyChainTradeLineItem.SupplyChainTradeLineItem)
  ; applicable_header_trade_agreement : HeaderTradeAgreement.HeaderTradeAgreement
  ; applicable_header_trade_delivery : HeaderTradeDelivery.HeaderTradeDelivery
  ; applicable_header_trade_settlement : HeaderTradeSettlement.HeaderTradeSettlement
    (** the private attribute [self._profile] read by [validate_transaction];
        [None] when [hasattr(self, '_profile')] is false. No code of the
        package assigns it. *)
  ; _profile : option InvoiceProfile }.

Definition line_id_of (it : SupplyChainTradeLineItem.SupplyChainTradeLineItem) : Z :=
  DocumentLineDocument.line_id (SupplyChainTradeLineItem.associated_document_line_document it).

Definition msg_mandatory := "ValueError: Line items are mandatory for BASIC profile and above".
Definition msg_too_many := "ValueError: Maximum number of line items exceeded (999999)".
Definition msg_duplicate (id : Z) := "ValueError: Duplicate line ID: " ++ str_int id.

(** The loop over the items with the set [line_ids] of the ids seen. *)
Fixpoint check_unique (items : list SupplyChainTradeLineItem.SupplyChainTradeLineItem)
  (line_ids : list Z) : py_result unit :=
  match items with
  | [] => Ok tt
  | item :: rest =>
      if existsb (Z.eqb (line_id_of item)) line_ids
      then Error (msg_duplicate (line_id_of item))
      else check_unique rest (line_id_of item :: line_ids)
  end.

(** [@model_validator(mode='after') validate_transaction] *)
Definition validate_transaction (self : SupplyChainTradeTransaction) : py_result unit :=
  let profile_check :=
    match _profile self with
    | Some p => if prof_ge p BASIC && negb (list_truthy (included_supply_chain_trade_line_items self))
                then Error msg_mandatory else Ok tt
    | None => Ok tt
    end in
  match profile_check with
  | Error e => Error e
  | Ok _ =>
      match included_supply_chain_trade_line_items self with
      | Some items =>
          if list_truthy (Some items) then
            if (999999 <? Z.of_nat (length items))%Z then Error msg_too_many
            else check_unique items []
          else Ok tt
      | None => Ok tt
      end
  end.

(** [SupplyChainTradeTransaction(...)]: the instance, with no [_profile],
    then its model validator. *)
Definition construct items agreement delivery settlement
  : py_result SupplyChainTradeTransaction :=
  let self := mk items agreement delivery settlement None in
  match validate_transaction self with
  | Ok _ => Ok self
  | Error e => Error e
  end.

(** The renders of the line items, in the order the loop makes them. *)
Definition line_items_xml (self : SupplyChainTradeTransaction) (profile : InvoiceProfile)
  : list (py_result Element) :=
  if prof_ge profile BASIC then
    match included_supply_chain_trade_line_items self with
    | Some items =>
        if list_truthy (Some items)
        then map (fun it => SupplyChainTradeLineItem.to_xml it "IncludedSupplyChainTradeLineItem" profile) items
        else []
    | None => []
    end
  else [].

Definition set_delivery (self : SupplyChainTradeTransaction) d :=
  mk (included_supply_chain_trade_line_items self) (applicable_header_trade_agreement self)
     d (applicable_header_trade_settlement self) (_profile self).

Definition set_settlement (self : SupplyChainTradeTransaction) s :=
  mk (included_supply_chain_trade_line_items self) (applicable_header_trade_agreement self)
     (applicable_header_trade_delivery self) s (_profile self).

(** [SupplyChainTradeTransaction.to_xml]: returns the outcome and the
    transaction as it is after the call. Its delivery and settlement are
    updated by their own [to_xml], when the call gets that far; nothing
    catches an exception. *)
Definition to_xml (self : SupplyChainTradeTransaction) (element_name : string)
  (profile : InvoiceProfile) : py_result Element * SupplyChainTradeTransaction :=
  let root := new_element (qname RSM element_name) in
  match append_results root (line_items_xml self profile) with
  | Error e => (Error e, self)
  | Ok root =>
      match HeaderTradeAgreement.to_xml (applicable_header_trade_agreement self)
              "ApplicableHeaderTradeAgreement" profile with
      | Error e => (Error e, self)
      | Ok a_el =>
          let root := append root a_el in
          let (d_res, delivery') := HeaderTradeDelivery.to_xml (applicable_header_trade_delivery self)
                                      "ApplicableHeaderTradeDelivery" profile in
          let self := set_delivery self delivery' in
          match d_res with
          | Error e => (Error e, self)
          | Ok d_el =>
              let root := append root d_el in
              let (s_res, settlement') :=
                HeaderTradeSettlement.to_xml (applicable_header_trade_settlement self)
                  "ApplicableHeaderTradeSettlement" profile in
              let self := set_settlement self settlement' in
              match s_res with
              | Error e => (Error e, self)
              | Ok s_el => (Ok (append root s_el), self)
              end
          end
      end
  end.

(** [get_line_count]: [len(self.included_supply_chain_trade_line_items or [])] *)
Definition get_line_count (self : SupplyChainTradeTransaction) : nat :=
  length (match included_supply_chain_trade_line_items self with Some l => l | None => [] end).

(** [has_line_items]: [bool(self.included_supply_chain_trade_line_items)] *)
Definition has_line_items (self : SupplyChainTradeTransaction) : bool :=
  list_truthy (included_supply_chain_trade_line_items self).
End SupplyChainTradeTransaction.

(** ** FacturXData.py *)
Module FacturXData.
Record FacturXData := mk
  { exchanged_document_context : ExchangedDocumentContext.ExchangedDocumentContext
  ; exchanged_document : ExchangedDocument.ExchangedDocument
  ; supply_chain_transaction : SupplyChainTradeTransaction.SupplyChainTradeTransaction }.

Definition CONTEXT_ELEMENT := "ExchangedDocumentContext".
Definition DOCUMENT_ELEMENT := "ExchangedDocument".
Definition TRANSACTION_ELEMENT := "SupplyChainTradeTransaction".
Definition ROOT_ELEMENT := "CrossIndustryInvoice".

(** [validate_profile_consistency]: [hasattr(self.exchanged_document,
    'profile')] is false ([ExchangedDocument] declares no such field), so
    the check never raises. *)
Definition validate_profile_consistency (self : FacturXData) : py_result FacturXData :=
  Ok self.

(** [FacturXData.create]: [create_with_business_process] when the id is
    truthy, [create_default] otherwise. *)
Definition create (profile : InvoiceProfile) document transaction
  (business_process_id : option string) : py_result FacturXData :=
  let? context :=
    if str_truthy business_process_id
    then ExchangedDocumentContext.construct business_process_id profile
    else ExchangedDocumentContext.construct None profile in
  validate_profile_consistency (mk context document transaction).

(** [except (ET.XMLSyntaxError, ValueError) as e: raise ValueError(...)] *)
Definition reraise (e : string) : string :=
  if is_value_error e then ValueError ("Failed to create XML document: " ++ str_exn e) else e.

(** [FacturXData.to_xml]; the model is frozen, but the transaction it
    holds is not, so the transaction as it is after the call is returned
    with the outcome. *)
Definition to_xml (self : FacturXData) (element_name : string) (profile : InvoiceProfile)
  : py_result Element * FacturXData :=
  let root := Elem (qname RSM element_name) [] NAMESPACES None [] in
  let root := append root (ExchangedDocumentContext.to_xml (exchanged_document_context self)
                             CONTEXT_ELEMENT profile) in
  match ExchangedDocument.to_xml (exchanged_document self) DOCUMENT_ELEMENT profile with
  | Error e => (Error (reraise e), self)
  | Ok d_el =>
      let root := append root d_el in
      let (t_res, transaction') :=
        SupplyChainTradeTransaction.to_xml (supply_chain_transaction self) TRANSACTION_ELEMENT profile in
      let self := mk (exchanged_document_context self) (exchanged_document self) transaction' in
      match t_res with
      | Error e => (Error (reraise e), self)
      | Ok t_el => (Ok (append root t_el), self)
      end
  end.

Section Getters.
(** The names [ExchangedDocument] inherits, as in [ExchangedDocument.getattr]. *)
Variable inherited_names : list string.

(** [get_invoice_number]: [self.exchanged_document.invoice_number] *)
Definition get_invoice_number (self : FacturXData) : py_result ExchangedDocument.attr_value :=
  ExchangedDocument.getattr inherited_names (exchanged_document self) "invoice_number".

(** [get_invoice_date]: [self.exchanged_document.issue_date] *)
Definition get_invoice_date (self : FacturXData) : py_result ExchangedDocument.attr_value :=
  ExchangedDocument.getattr inherited_names (exchanged_document self) "issue_date".
End Getters.
End FacturXData.

(** ** FacturXGenerator.py *)
Module FacturXGenerator.
Definition msg_extended := "NotImplementedError: The 'EXTENDED' profile is not supported yet".

(** [FacturXGenerator.generate]; [_validate_with_schematron] runs an XSLT
    from disk and is a parameter here. The [except] clause names only
    [XMLSyntaxError], so the [ValueError] of [to_xml] propagates. *)
Definition generate (_validate_with_schematron : Element -> InvoiceProfile -> py_result unit)
  (factur_x_data : FacturXData.FacturXData) (profile : InvoiceProfile) (validate_xslt : bool)
  : py_result Element :=
  match profile with
  | EXTENDED => Error msg_extended
  | _ =>
      let? factur_x_xml := fst (FacturXData.to_xml factur_x_data "CrossIndustryInvoice" profile) in
      if validate_xslt then
        match _validate_with_schematron factur_x_xml profile with
        | Ok _ => Ok factur_x_xml
        | Error e => Error e
        end
      else Ok factur_x_xml
  end.

(** [SchematronValidationError._format_message] *)
Definition _format_message (failed_asserts reports : list string) : string :=
  let messages :=
    ((if nonempty failed_asserts
      then "Failed assertions:" :: map (fun a => String.append "  - " a) failed_asserts else [])
     ++ (if nonempty reports
         then "Validation reports:" :: map (fun r => String.append "  - " r) reports else []))%list in
  py_join (String (ascii_of_nat 10) EmptyString) messages.

(** [is_valid=not (failed_asserts or reports)], as [_parse_svrl_result]
    builds its [ValidationResult]. *)
Definition is_valid (failed_asserts reports : list string) : bool :=
  negb (nonempty failed_asserts || nonempty reports).

(** The end of [_validate_with_schematron], once the SVRL output is parsed
    into its failed assertions and its reports. *)
Definition check_validation_result (failed_asserts reports : list string) : py_result unit :=
  if is_valid failed_asserts reports then Ok tt
  else Error ("SchematronValidationError: " ++ _format_message failed_asserts reports).
End FacturXGenerator.

Definition is_digit (c : ascii) : bool :=
  (48 <=? Z.of_nat (nat_of_ascii c)) && (Z.of_nat (nat_of_ascii c) <=? 57).

(** Whether a string contains a decimal digit. *)
Fixpoint has_digit (s : string) : bool :=
  match s with
  | EmptyString => false
  | String c s' =>
      is_digit c || has_digit s'
  end.


(** Whether every character of a string is a decimal digit. *)
Fixpoint all_digits (s : string) : bool :=
  match s with EmptyString => true | String c s' => is_digit c && all_digits s' end.


(** ** Concrete inputs *)
Module Examples.
Import TradeSettlementHeaderMonetarySummation.
Local Open Scope float_scope.

(** The passing summation of the specification, and the same one with
    [due_payable_amount=100.00]. *)
Definition summation :=
  mk (Some 100) (Some 0) (Some 0) 100 (Some 4.90) (Some 0) (Some "EUR") 104.90 (Some 0) 104.90.
Definition summation_due100 :=
  mk (Some 100) (Some 0) (Some 0) 100 (Some 4.90) (Some 0) (Some "EUR") 104.90 (Some 0) 100.00.
(** Exactly, 0.01 + 0.06 - 0.09 is far below 0.02; in binary64 the stored
    doubles give a difference above it. *)
Definition summation_small :=
  mk None None None 0.01 (Some 0.06) None (Some "EUR") 0.09 None 0.09.

Definition date_2025_04_25 := mk_datetime 2025 4 25 0 0 0.

Definition delivery :=
  HeaderTradeDelivery.mk None (Some (SupplyChainEvent.mk date_2025_04_25)) None None None.

Definition empty_node := mk_node (fun n _ => Ok (new_element (qname RAM n))).

Definition settlement :=
  HeaderTradeSettlement.mk "EUR" empty_node None None None None None (Some [empty_node])
    None None None None None None.

Definition agreement := HeaderTradeAgreement.mk (fun _ => Ok []).

(** A note whose content holds U+0001. *)
Definition control_note := Note.mk (String "a" (String (ascii_of_nat 1) "b")) None.

Definition document_with_control_note :=
  ExchangedDocument.mk "INV-002" "380" date_2025_04_25 (Some [control_note]).

Definition line_item (id : Z) :=
  SupplyChainTradeLineItem.mk (DocumentLineDocument.mk id) (fun _ => Ok []).

Definition transaction :=
  SupplyChainTradeTransaction.mk (Some [line_item 1; line_item 2]) agreement delivery settlement None.

Definition document :=
  ExchangedDocument.mk "INV-001" "380" date_2025_04_25
    (Some [Note.mk "Thank you" None; Note.mk "Net 30" (Some "AAB")]).

Definition data :=
  FacturXData.mk (ExchangedDocumentContext.mk None BASIC) document transaction.

Definition data_with_control_note :=
  FacturXData.mk (ExchangedDocumentContext.mk None BASIC) document_with_control_note transaction.

End Examples.

(** * Properties *)

(** ** Binary64 arithmetic never produces NaN from finite operands *)
Module FloatFacts.
Local Open Scope float_scope.

Definition notnan (f : spec_float) : bool :=
  match f with S754_nan => false | _ => true end.

Definition sf_finite (f : spec_float) : bool :=
  match f with S754_zero _ | S754_finite _ _ _ => true | _ => false end.

Definition sf_zero (f : spec_float) : bool :=
  match f with S754_zero _ => true | _ => false end.

Lemma shr_1_nonneg r : (0 <= shr_m r)%Z -> (0 <= shr_m (shr_1 r))%Z.
Proof. destruct r as [m r s]; simpl; destruct m as [|[p|p|]|p]; simpl; lia. Qed.

Lemma iter_shr_1_nonneg p : forall r, (0 <= shr_m r)%Z -> (0 <= shr_m (SpecFloat.iter_pos shr_1 p r))%Z.
Proof.
  induction p; intros r H; simpl; auto using shr_1_nonneg.
Qed.

Lemma shr_nonneg r e n : (0 <= shr_m r)%Z -> (0 <= shr_m (fst (shr r e n)))%Z.
Proof. destruct n; simpl; auto using iter_shr_1_nonneg. Qed.

Lemma shr_fexp_nonneg pr em m e l :
  (0 <= m)%Z -> (0 <= shr_m (fst (shr_fexp pr em m e l)))%Z.
Proof.
  intros H; unfold shr_fexp; apply shr_nonneg.
  destruct l as [|[]]; simpl; exact H.
Qed.

Lemma round_nearest_even_nonneg m l : (0 <= m)%Z -> (0 <= round_nearest_even m l)%Z.
Proof. destruct l as [|[]]; simpl; try destruct (Z.even m); lia. Qed.

Lemma binary_round_aux_notnan pr em sx mx ex lx :
  (0 <= mx)%Z -> notnan (binary_round_aux pr em sx mx ex lx) = true.
Proof.
  intros H; unfold binary_round_aux.
  pose proof (shr_fexp_nonneg pr em mx ex lx H) as H1.
  destruct (shr_fexp pr em mx ex lx) as [mrs' e'] eqn:E1; simpl in H1.
  pose proof (shr_fexp_nonneg pr em
                (round_nearest_even (shr_m mrs') (loc_of_shr_record mrs')) e' loc_Exact
                (round_nearest_even_nonneg _ _ H1)) as H2.
  destruct (shr_fexp pr em (round_nearest_even (shr_m mrs') (loc_of_shr_record mrs')) e'
              loc_Exact) as [mrs'' e''] eqn:E2; simpl in H2.
  destruct (shr_m mrs''); [reflexivity| destruct (_ <=? _)%Z; reflexivity | lia].
Qed.

Lemma binary_normalize_notnan pr em m e b :
  notnan (binary_normalize pr em m e b) = true.
Proof.
  destruct m; simpl; try reflexivity;
    unfold binary_round; destruct (shl_align _ _ _);
    apply binary_round_aux_notnan; lia.
Qed.

Lemma SFadd_notnan pr em f g :
  notnan f = true -> sf_finite g = true -> notnan (SFadd pr em f g) = true.
Proof.
  intros Hf Hg; destruct f, g; try discriminate; simpl;
    repeat match goal with b : bool |- _ => destruct b end;
    try reflexivity; apply binary_normalize_notnan.
Qed.

Lemma SFsub_notnan pr em f g :
  notnan f = true -> sf_finite g = true -> notnan (SFsub pr em f g) = true.
Proof.
  intros Hf Hg; destruct f, g; try discriminate; simpl;
    repeat match goal with b : bool |- _ => destruct b end;
    try reflexivity; apply binary_normalize_notnan.
Qed.

Lemma finite_notnan x : MonetaryRules.isfinite x = true -> notnan (Prim2SF x) = true.
Proof. unfold MonetaryRules.isfinite; destruct (Prim2SF x); easy. Qed.

Lemma add_notnan x y :
  notnan (Prim2SF x) = true -> MonetaryRules.isfinite y = true ->
  notnan (Prim2SF (x + y)) = true.
Proof. intros; rewrite add_spec; apply SFadd_notnan; assumption. Qed.

Lemma sub_notnan x y :
  notnan (Prim2SF x) = true -> MonetaryRules.isfinite y = true ->
  notnan (Prim2SF (x - y)) = true.
Proof. intros; rewrite sub_spec; apply SFsub_notnan; assumption. Qed.

Lemma abs_notnan x : notnan (Prim2SF x) = true -> notnan (Prim2SF (abs x)) = true.
Proof. rewrite abs_spec; destruct (Prim2SF x); easy. Qed.

Lemma pos_cmp_opp a b : Pos.compare_cont Eq b a = CompOpp (Pos.compare_cont Eq a b).
Proof. pose proof (Pos.compare_cont_antisym a b Eq) as A; simpl in A; rewrite <- A; reflexivity. Qed.

(** On non-NaN values [x <= y] is the negation of [y < x]. *)
Lemma SFleb_not_ltb f g :
  notnan f = true -> notnan g = true -> SFleb f g = negb (SFltb g f).
Proof.
  intros Hf Hg; destruct f, g; try discriminate;
    unfold SFleb, SFltb, SFcompare;
    repeat match goal with b : bool |- _ => destruct b end; try reflexivity.
  all: rewrite (Z.compare_antisym e e0), (pos_cmp_opp m m0);
    destruct (Z.compare e e0), (Pos.compare_cont Eq m m0); reflexivity.
Qed.

Lemma leb_not_ltb x y :
  notnan (Prim2SF x) = true -> notnan (Prim2SF y) = true -> (x <=? y) = negb (y <? x).
Proof. intros; rewrite leb_spec, ltb_spec; apply SFleb_not_ltb; assumption. Qed.
End FloatFacts.

(** ** The three checks of [validate_amounts] against the rules *)
Module MonetaryFacts.
Import TradeSettlementHeaderMonetarySummation MonetaryRules FloatFacts.
Local Open Scope float_scope.

(** Equal, or both zeros of possibly different signs. *)
Definition zeq (f g : spec_float) : Prop :=
  f = g \/ (sf_zero f = true /\ sf_zero g = true).

Ltac zeq_cases :=
  repeat match goal with b : bool |- _ => destruct b end; simpl;
  first [left; reflexivity | right; split; reflexivity].

Lemma SFadd_zeq pr em f f' g g' :
  zeq f f' -> zeq g g' -> zeq (SFadd pr em f g) (SFadd pr em f' g').
Proof.
  intros [<-|[Hf Hf']] [<-|[Hg Hg']].
  - left; reflexivity.
  - destruct g, g'; try discriminate; destruct f; zeq_cases.
  - destruct f, f'; try discriminate; destruct g; zeq_cases.
  - destruct f, f', g, g'; try discriminate; zeq_cases.
Qed.

Lemma SFsub_zeq pr em f f' g g' :
  zeq f f' -> zeq g g' -> zeq (SFsub pr em f g) (SFsub pr em f' g').
Proof.
  intros [<-|[Hf Hf']] [<-|[Hg Hg']].
  - left; reflexivity.
  - destruct g, g'; try discriminate; destruct f; zeq_cases.
  - destruct f, f'; try discriminate; destruct g; zeq_cases.
  - destruct f, f', g, g'; try discriminate; zeq_cases.
Qed.

Lemma zeq_refl x : zeq (Prim2SF x) (Prim2SF x).
Proof. left; reflexivity. Qed.

Lemma add_zeq a a' b b' :
  zeq (Prim2SF a) (Prim2SF a') -> zeq (Prim2SF b) (Prim2SF b') ->
  zeq (Prim2SF (a + b)) (Prim2SF (a' + b')).
Proof. rewrite !add_spec; apply SFadd_zeq. Qed.

Lemma sub_zeq a a' b b' :
  zeq (Prim2SF a) (Prim2SF a') -> zeq (Prim2SF b) (Prim2SF b') ->
  zeq (Prim2SF (a - b)) (Prim2SF (a' - b')).
Proof. rewrite !sub_spec; apply SFsub_zeq. Qed.

Lemma Prim2SF_zero : Prim2SF 0 = S754_zero false.
Proof. vm_compute; reflexivity. Qed.

(** [(x or 0)] differs from "absent as 0" at most in the sign of a zero. *)
Lemma or0_zeq o : zeq (Prim2SF (or0 o)) (Prim2SF (absent_as_0 o)).
Proof.
  destruct o as [x|]; [|left; reflexivity].
  unfold or0, float_truthy, absent_as_0.
  destruct (x =? 0) eqn:E; simpl; [|left; reflexivity].
  right; rewrite Prim2SF_zero; split; [reflexivity|].
  rewrite FloatAxioms.eqb_spec, Prim2SF_zero in E.
  destruct (Prim2SF x); try destruct s; try discriminate; reflexivity.
Qed.

Lemma zeq_abs a b : zeq (Prim2SF a) (Prim2SF b) -> abs a = abs b.
Proof.
  intros H; apply Prim2SF_inj; rewrite !abs_spec.
  destruct H as [->|[Ha Hb]]; [reflexivity|].
  destruct (Prim2SF a), (Prim2SF b); try discriminate; reflexivity.
Qed.

Lemma notnan_tol : notnan (Prim2SF 0.02) = true.
Proof. vm_compute; reflexivity. Qed.

(** The code's test [abs(d) > 0.02] against the rule [|d'| <= 0.02]. *)
Lemma tol_test d d' :
  zeq (Prim2SF d) (Prim2SF d') -> notnan (Prim2SF d') = true ->
  (0.02 <? abs d) = negb (abs d' <=? 0.02).
Proof.
  intros Hz Hn; rewrite (zeq_abs d d' Hz).
  rewrite (leb_not_ltb (abs d') 0.02 (abs_notnan d' Hn) notnan_tol).
  rewrite negb_involutive; reflexivity.
Qed.

Lemma absent_as_0_finite o : opt_finite o = true -> isfinite (absent_as_0 o) = true.
Proof. destruct o; simpl; [auto | vm_compute; reflexivity]. Qed.

(** [validate_amounts] on finite amounts: the first rule that does not hold
    raises its fixed message; if all hold the summation is returned. *)
Lemma validate_amounts_rules s :
  amounts_finite s = true ->
  validate_amounts s =
    if negb (rule1 s) then Error (ValueError msg_rule1)
    else if negb (rule2 s) then Error (ValueError msg_rule2)
    else if negb (rule3 s) then Error (ValueError msg_rule3)
    else Ok s.
Proof.
  intros Hfin.
  destruct s as [L C A T TT R cur G P D]; unfold amounts_finite in Hfin; simpl in Hfin.
  repeat match goal with H : (_ && _)%bool = true |- _ => apply andb_prop in H; destruct H end.
  unfold validate_amounts, rule1, rule2, rule3; simpl.
  assert (E2 : (0.02 <? abs (T + or0 TT + or0 R - G))
               = negb (abs (T + absent_as_0 TT + absent_as_0 R - G) <=? 0.02)).
  { apply tol_test.
    - apply sub_zeq; [apply add_zeq; [apply add_zeq|]|]; auto using zeq_refl, or0_zeq.
    - apply sub_notnan; [apply add_notnan; [apply add_notnan|]|];
        auto using finite_notnan, absent_as_0_finite. }
  assert (E3 : (0.02 <? abs (G - or0 P - D))
               = negb (abs (G - absent_as_0 P - D) <=? 0.02)).
  { apply tol_test.
    - apply sub_zeq; [apply sub_zeq|]; auto using zeq_refl, or0_zeq.
    - apply sub_notnan; [apply sub_notnan|];
        auto using finite_notnan, absent_as_0_finite. }
  rewrite E2, E3.
  destruct L as [l|], C as [c|], A as [a|]; cbv beta iota; try reflexivity.
  assert (E1 : (0.02 <? abs (l + or0 (Some c) - or0 (Some a) - T))
               = negb (abs (l + c - a - T) <=? 0.02)).
  { apply tol_test.
    - apply sub_zeq; [apply sub_zeq; [apply add_zeq|]|];
        auto using zeq_refl; [apply (or0_zeq (Some c)) | apply (or0_zeq (Some a))].
    - simpl in *.
      apply sub_notnan; [apply sub_notnan; [apply add_notnan|]|];
        auto using finite_notnan. }
  rewrite E1; reflexivity.
Qed.
End MonetaryFacts.

(** ** Facts about the element builders *)
Module XmlFacts.
Lemma append_tag r c : tag (append r c) = tag r.
Proof. reflexivity. Qed.

Lemma append_children r c : children (append r c) = (children r ++ [c])%list.
Proof. reflexivity. Qed.

Lemma fold_append_tag l r : tag (fold_left append l r) = tag r.
Proof. revert r; induction l as [|c l IH]; intro r; simpl; [reflexivity | now rewrite IH]. Qed.

Lemma fold_append_children l r : children (fold_left append l r) = (children r ++ l)%list.
Proof.
  revert r; induction l as [|c l IH]; intro r; simpl.
  - now rewrite app_nil_r.
  - rewrite IH, append_children, <- app_assoc; reflexivity.
Qed.

Lemma fold_append_nsmap l r : nsmap (fold_left append l r) = nsmap r.
Proof. revert r; induction l as [|c l IH]; intro r; simpl; [reflexivity | now rewrite IH]. Qed.

(** ** Calls that may raise *)

Lemma bind_ok {A B} (r : py_result A) (f : A -> py_result B) b :
  py_bind r f = Ok b <-> exists a, r = Ok a /\ f a = Ok b.
Proof.
  destruct r as [a|e]; simpl; split.
  - intros H; exists a; split; [reflexivity|exact H].
  - intros [a' [H1 H2]]; injection H1 as <-; exact H2.
  - discriminate.
  - intros [a' [H _]]; discriminate.
Qed.

(** Splitting a hypothesis [let? x := r in f = Ok b] into its steps. *)
Ltac ok_steps H :=
  repeat match type of H with
  | py_bind _ _ = Ok _ => apply bind_ok in H as [?x [?Hx H]]
  end.

Lemma text_leaf_ok t a s e :
  text_leaf t a s = Ok e -> e = leaf t a s /\ xml_compatible s = true.
Proof.
  unfold text_leaf; destruct (forallb _ a) eqn:Ea, (xml_compatible s) eqn:Es; cbn [andb];
    intros H; try discriminate; injection H as <-; auto.
Qed.

Lemma text_leaf_eq t s :
  text_leaf t [] s = if xml_compatible s then Ok (leaf t [] s) else Error (ValueError msg_xml_text).
Proof. reflexivity. Qed.

Lemma all_digits_compatible s : all_digits s = true -> xml_compatible s = true.
Proof.
  induction s as [|c s IH]; [reflexivity|].
  cbn [all_digits xml_compatible list_ascii_of_string forallb].
  intros H; apply andb_prop in H as [Hc Hs].
  unfold xml_compatible in IH; rewrite (IH Hs), andb_true_r.
  unfold is_digit in Hc; unfold xml_char_ok, code.
  apply andb_prop in Hc as [Hc _]; apply Z.leb_le in Hc.
  assert (E : (32 <=? Z.of_nat (nat_of_ascii c)) = true) by (apply Z.leb_le; lia).
  rewrite E, !orb_true_r; reflexivity.
Qed.

(** ** Loops over renders that may raise *)

Lemma append_results_ok r l r' :
  append_results r l = Ok r' ->
  exists els, Forall2 (fun x e => x = Ok e) l els /\ r' = fold_left append els r.
Proof.
  revert r; induction l as [|x l IH]; intros r H; cbn [append_results] in H.
  - injection H as <-; exists []; split; [constructor|reflexivity].
  - ok_steps H. destruct (IH _ H) as [els [Hf ->]].
    exists (x0 :: els); split; [constructor; assumption|reflexivity].
Qed.

Lemma append_results_forall2 r l els :
  Forall2 (fun x e => x = Ok e) l els -> append_results r l = Ok (fold_left append els r).
Proof.
  intros Hf; revert r; induction Hf as [|x e l els Hx Hf IH]; intro r; [reflexivity|].
  cbn [append_results]; rewrite Hx; apply IH.
Qed.

Lemma append_results_iff r l :
  (exists r', append_results r l = Ok r') <-> Forall (fun x => exists e, x = Ok e) l.
Proof.
  split.
  - intros [r' H]; destruct (append_results_ok _ _ _ H) as [els [Hf _]].
    clear H; induction Hf as [|x e l els Hx Hf IH]; constructor; [exists e; exact Hx|exact IH].
  - intros Hf; revert r; induction Hf as [|x l [e ->] Hf IH]; intro r; [eexists; reflexivity|].
    cbn [append_results py_bind]; apply IH.
Qed.

Lemma Forall2_map_l {A B C} (f : A -> B) (P : B -> C -> Prop) l l' :
  Forall2 P (map f l) l' <-> Forall2 (fun a c => P (f a) c) l l'.
Proof.
  revert l'; induction l as [|a l IH]; intros l'; cbn [map]; split; intros H.
  - inversion H; constructor.
  - inversion H; constructor.
  - inversion H; subst; constructor; [assumption|apply IH; assumption].
  - inversion H; subst; constructor; [assumption|apply IH; assumption].
Qed.

(** ** Roots that only gain children *)

(** A root extended by appends only. *)
Definition extends (r r' : Element) : Prop := exists l, children r' = (children r ++ l)%list.

Lemma extends_refl r : extends r r.
Proof. exists []; now rewrite app_nil_r. Qed.

Lemma extends_append r r' c : extends r r' -> extends r (append r' c).
Proof. intros [l H]; exists (l ++ [c])%list; rewrite append_children, H, app_assoc; reflexivity. Qed.

Lemma extends_in r r' c : extends r r' -> In c (children r) -> In c (children r').
Proof. intros [l H] Hin; rewrite H; apply in_or_app; now left. Qed.




(** A root that keeps its tag and namespace map and gains [k] children. *)
Definition grows (r r' : Element) (k : nat) : Prop :=
  tag r' = tag r /\ nsmap r' = nsmap r
  /\ exists l, children r' = (children r ++ l)%list /\ length l = k.

Lemma grows_refl r : grows r r 0.
Proof. split; [reflexivity|split; [reflexivity|exists []; rewrite app_nil_r; auto]]. Qed.

Lemma grows_append r c : grows r (append r c) 1.
Proof. split; [reflexivity|split; [reflexivity|exists [c]; auto]]. Qed.

Lemma grows_trans r1 r2 r3 k1 k2 : grows r1 r2 k1 -> grows r2 r3 k2 -> grows r1 r3 (k1 + k2).
Proof.
  intros [T1 [N1 [l1 [C1 L1]]]] [T2 [N2 [l2 [C2 L2]]]].
  split; [congruence|split; [congruence|]].
  exists (l1 ++ l2)%list; split; [rewrite C2, C1, app_assoc; reflexivity|].
  rewrite length_app; lia.
Qed.

Lemma grows_fold r l : grows r (fold_left append l r) (length l).
Proof.
  split; [apply fold_append_tag|split; [apply fold_append_nsmap|]].
  exists l; split; [apply fold_append_children|reflexivity].
Qed.

Lemma append_results_grows r l r' : append_results r l = Ok r' -> grows r r' (length l).
Proof.
  intros H; destruct (append_results_ok _ _ _ H) as [els [Hf ->]].
  rewrite (Forall2_length Hf); apply grows_fold.
Qed.

Lemma grows_if (b : bool) r r' k : (if b then grows r r' k else grows r r' 0) -> grows r r' (if b then k else 0).
Proof. destruct b; auto. Qed.

(** ** The header nodes *)

Lemma append_if_valid_grows {A} (rd : A -> string -> InvoiceProfile -> py_result Element) r v n p m r' :
  HeaderTradeDelivery._append_element_if_valid rd r v n p m = Ok r' ->
  grows r r' (if prof_ge p m then Nat.b2n (is_some v) else 0).
Proof.
  unfold HeaderTradeDelivery._append_element_if_valid.
  destruct v; destruct (prof_ge p m); intros H; ok_steps H; injection H as <-;
    apply grows_append || apply grows_refl.
Qed.

Lemma delivery_grows d n p e :
  fst (HeaderTradeDelivery.to_xml d n p) = Ok e ->
  grows (new_element (qname RAM n)) e
    ((if prof_ge p BASICWL then Nat.b2n (is_some (HeaderTradeDelivery.ship_to_trade_party d)) else 0)
     + (if prof_ge p BASICWL
        then Nat.b2n (is_some (HeaderTradeDelivery.actual_delivery_supply_chain_event d)) else 0)
     + (if prof_ge p BASICWL
        then Nat.b2n (is_some (HeaderTradeDelivery.despatch_advice_referenced_document d)) else 0)
     + (if prof_ge p EN16931
        then Nat.b2n (is_some (HeaderTradeDelivery.receiving_advice_referenced_document d)) else 0)).
Proof.
  unfold HeaderTradeDelivery.to_xml; cbv zeta; cbn [fst]; intros H; ok_steps H.
  destruct d; cbn [HeaderTradeDelivery.set_current_profile HeaderTradeDelivery.ship_to_trade_party
    HeaderTradeDelivery.actual_delivery_supply_chain_event
    HeaderTradeDelivery.despatch_advice_referenced_document
    HeaderTradeDelivery.receiving_advice_referenced_document] in *.
  repeat eapply grows_trans; eapply append_if_valid_grows; eassumption.
Qed.

Lemma delivery_tag d n p e : fst (HeaderTradeDelivery.to_xml d n p) = Ok e -> tag e = qname RAM n.
Proof. intros H; apply (proj1 (delivery_grows d n p e H)). Qed.

Lemma settlement_text_grows r v n p m r' :
  HeaderTradeSettlement._add_text_element r v n p m = Ok r' ->
  grows r r' (if prof_ge p m then Nat.b2n (is_some v) else 0).
Proof.
  unfold HeaderTradeSettlement._add_text_element.
  destruct v; destruct (prof_ge p m); intros H; ok_steps H; injection H as <-;
    apply grows_append || apply grows_refl.
Qed.

Lemma settlement_object_grows r v n p m r' :
  HeaderTradeSettlement._add_object_element r v n p m = Ok r' ->
  grows r r' (if prof_ge p m then Nat.b2n (is_some v) else 0).
Proof.
  unfold HeaderTradeSettlement._add_object_element.
  destruct v; destruct (prof_ge p m); intros H; ok_steps H; injection H as <-;
    apply grows_append || apply grows_refl.
Qed.

Lemma settlement_list_grows r v n p m r' :
  HeaderTradeSettlement._add_list_elements r v n p m = Ok r' ->
  grows r r' (if prof_ge p m then HeaderTradeSettlement.opt_length v else 0).
Proof.
  unfold HeaderTradeSettlement._add_list_elements.
  destruct v as [l|]; destruct (prof_ge p m); intros H; cbn [HeaderTradeSettlement.opt_length];
    try (injection H as <-; apply grows_refl).
  rewrite <- (length_map (fun it => node_to_xml it n p) l); eapply append_results_grows; eassumption.
Qed.

Lemma settlement_grows s n p e :
  fst (HeaderTradeSettlement.to_xml s n p) = Ok e ->
  grows (new_element (qname RAM n)) e
    ((if prof_ge p BASICWL then Nat.b2n (is_some (HeaderTradeSettlement.creditor_reference_id s)) else 0)
     + (if prof_ge p BASICWL then Nat.b2n (is_some (HeaderTradeSettlement.payment_reference s)) else 0)
     + (if prof_ge p BASICWL then Nat.b2n (is_some (HeaderTradeSettlement.tax_currency_code s)) else 0)
     + 1
     + (if prof_ge p BASICWL then Nat.b2n (is_some (HeaderTradeSettlement.payee_trade_party s)) else 0)
     + (if prof_ge p BASICWL
        then Nat.b2n (is_some (HeaderTradeSettlement.billing_specified_period s)) else 0)
     + (if prof_ge p BASICWL
        then Nat.b2n (is_some (HeaderTradeSettlement.specified_trade_payment_terms s)) else 0)
     + (if prof_ge p BASICWL
        then HeaderTradeSettlement.opt_length
               (HeaderTradeSettlement.specified_trade_settlement_payment_means s) else 0)
     + (if prof_ge p BASICWL
        then HeaderTradeSettlement.opt_length (HeaderTradeSettlement.applicable_trade_tax s) else 0)
     + (if prof_ge p BASICWL
        then HeaderTradeSettlement.opt_length
               (HeaderTradeSettlement.specified_trade_allowance_charge s) else 0)
     + (if prof_ge p BASICWL
        then HeaderTradeSettlement.opt_length
               (HeaderTradeSettlement.invoice_referenced_documents s) else 0)
     + 1
     + (if prof_ge p BASICWL
        then Nat.b2n (is_some (HeaderTradeSettlement.receivable_specified_trade_accounting_account s))
        else 0)).
Proof.
  unfold HeaderTradeSettlement.to_xml; cbv zeta; cbn [fst]; intros H; ok_steps H.
  destruct s; cbn [HeaderTradeSettlement.set_current_profile
    HeaderTradeSettlement.creditor_reference_id HeaderTradeSettlement.payment_reference
    HeaderTradeSettlement.tax_currency_code HeaderTradeSettlement.payee_trade_party
    HeaderTradeSettlement.billing_specified_period HeaderTradeSettlement.specified_trade_payment_terms
    HeaderTradeSettlement.specified_trade_settlement_payment_means
    HeaderTradeSettlement.applicable_trade_tax HeaderTradeSettlement.specified_trade_allowance_charge
    HeaderTradeSettlement.invoice_referenced_documents
    HeaderTradeSettlement.receivable_specified_trade_accounting_account] in *.
  repeat eapply grows_trans;
    first [ eapply settlement_text_grows; eassumption
          | eapply settlement_object_grows; eassumption
          | eapply settlement_list_grows; eassumption
          | apply grows_append ].
Qed.

Lemma settlement_tag s n p e : fst (HeaderTradeSettlement.to_xml s n p) = Ok e -> tag e = qname RAM n.
Proof. intros H; apply (proj1 (settlement_grows s n p e H)). Qed.




Lemma all_digits_app s t : all_digits (s ++ t) = all_digits s && all_digits t.
Proof. induction s as [|c s IH]; simpl; [reflexivity|]; rewrite IH; apply andb_assoc. Qed.




Lemma existsb_in x l : existsb (Z.eqb x) l = true <-> In x l.
Proof.
  rewrite existsb_exists; split.
  - intros [y [Hy E]]; apply Z.eqb_eq in E; now subst.
  - intros H; exists x; split; auto; apply Z.eqb_refl.
Qed.
End XmlFacts.

(** ** InvoiceProfile comparisons *)
Module ProfileOrder.
(** C1 (code bug). Between two members every comparison follows the
    index order 0..4, which is a strict total order; but a comparison
    with a plain [str] does not raise [TypeError] as the docstrings of
    [__lt__] etc. say: [NotImplemented] makes Python fall back to [str]'s
    lexicographic comparison of the URN, so
    [InvoiceProfile.EXTENDED < "urn:factur-x.eu:1p0:minimum"] is [True]
    while [InvoiceProfile.EXTENDED < InvoiceProfile.MINIMUM] is [False].
    Only an operand that is no [str] at all gives [TypeError]. *)
Theorem invoice_profile_cmp_str_fallback :
  (forall o p q, py_compare o (PProfile p) (PProfile q) = Ok (z_cmp o (index p) (index q)))
  /\ (forall p, (index p <? index p) = false)
  /\ (forall p q r, index p < index q -> index q < index r -> index p < index r)
  /\ (forall p q, p = q \/ index p < index q \/ index q < index p)
  /\ (index MINIMUM < index BASICWL < index BASIC)
  /\ (index BASIC < index EN16931 < index EXTENDED)
  /\ py_compare OpLt (PProfile EXTENDED) (PProfile MINIMUM) = Ok false
  /\ py_compare OpLt (PProfile EXTENDED) (PStr (value MINIMUM)) = Ok true
  /\ py_compare OpGe (PProfile MINIMUM) (PStr (value EXTENDED)) = Ok true
  /\ py_compare OpLt (PProfile EXTENDED) (PInt 0) = Error "TypeError".
Proof.
  split; [intros o p q; destruct o, p, q; reflexivity|].
  split; [intros p; destruct p; reflexivity|].
  split; [intros p q r; destruct p, q, r; simpl; lia|].
  split; [intros p q; destruct p, q; simpl; auto; right; lia|].
  repeat split; simpl; try lia; reflexivity.
Qed.
End ProfileOrder.

(** ** The header monetary summation *)
Module MonetaryClaims.
Import TradeSettlementHeaderMonetarySummation MonetaryRules MonetaryFacts Examples.

(** C2 (amended). For every summation whose amounts are finite and pass
    the per-field checks, construction succeeds (returning the summation)
    if and only if the three rules hold with every difference computed
    left to right in binary64 floating point and compared as
    [|d| <= 0.02] (rule 1 only when line, charge and allowance totals are
    all present; absent operands as 0). The specification's summation
    validates and the one with [due_payable_amount=100.00] fails rule 3. *)
Theorem summation_valid_iff_float_rules s :
  field_checks s = true -> amounts_finite s = true ->
  (construct s = Ok s <-> rules s = true)
  /\ (rules s = false -> exists e, construct s = Error e)
  /\ construct summation = Ok summation
  /\ construct summation_due100 = Error (ValueError msg_rule3).
Proof.
  intros Hf Hfin.
  unfold construct; rewrite Hf, (validate_amounts_rules s Hfin); unfold rules.
  split; [|split; [|split; vm_compute; reflexivity]].
  - destruct (rule1 s), (rule2 s), (rule3 s); simpl; split; congruence.
  - destruct (rule1 s), (rule2 s), (rule3 s); simpl; try discriminate; eauto.
Qed.

Lemma summation_valid_iff_float_rules_witness :
  field_checks summation = true /\ amounts_finite summation = true
  /\ construct summation = Ok summation /\ rules summation = true.
Proof.
  assert (Hf : field_checks summation = true) by (vm_compute; reflexivity).
  assert (Hfin : amounts_finite summation = true) by (vm_compute; reflexivity).
  destruct (summation_valid_iff_float_rules summation Hf Hfin) as [Hiff [_ [Hok _]]].
  split; [exact Hf|split; [exact Hfin|split; [exact Hok|apply Hiff; exact Hok]]].
Defined.

(** C2 (counterexample). Read over the reals the rules do not decide
    construction: with tax basis 0.01, tax total 0.06 and grand total
    0.09 the exact differences are all 0 (up to the decimal-to-binary
    rounding of the inputs) and within 1/50, yet construction fails
    rule 2. *)
Lemma summation_rules_exact_counterexample :
  field_checks summation_small = true /\ rulesQ summation_small = true
  /\ construct summation_small = Error (ValueError msg_rule2).
Proof. repeat split; vm_compute; reflexivity. Qed.

(** C8 (amended). For finite amounts passing the per-field checks, a
    violation raises a [ValueError] whose message is the fixed sentence of
    the first violated rule, in the order 1, 2, 3; no sentence holds a
    digit, so neither the computed nor the declared amount is reported. *)
Theorem summation_error_is_fixed_sentence s :
  field_checks s = true -> amounts_finite s = true ->
  construct s = (if negb (rule1 s) then Error (ValueError msg_rule1)
                 else if negb (rule2 s) then Error (ValueError msg_rule2)
                 else if negb (rule3 s) then Error (ValueError msg_rule3)
                 else Ok s)
  /\ has_digit (ValueError msg_rule1) = false
  /\ has_digit (ValueError msg_rule2) = false
  /\ has_digit (ValueError msg_rule3) = false.
Proof.
  intros Hf Hfin; unfold construct; rewrite Hf, (validate_amounts_rules s Hfin).
  repeat split; vm_compute; reflexivity.
Qed.

Lemma summation_error_is_fixed_sentence_witness :
  construct summation_due100 = Error (ValueError msg_rule3).
Proof.
  assert (Hf : field_checks summation_due100 = true) by (vm_compute; reflexivity).
  assert (Hfin : amounts_finite summation_due100 = true) by (vm_compute; reflexivity).
  destruct (summation_error_is_fixed_sentence summation_due100 Hf Hfin) as [E _].
  rewrite E; vm_compute; reflexivity.
Defined.

(** C8 (counterexample). The summation with [due_payable_amount=100.00]
    fails rule 3 with a message that contains no digit at all, so the
    expected value 104.90 is not in it. *)
Lemma summation_error_counterexample :
  construct summation_due100 = Error (ValueError msg_rule3)
  /\ has_digit (ValueError msg_rule3) = false.
Proof. split; vm_compute; reflexivity. Qed.
End MonetaryClaims.

(** ** Shapes of the rendered trees *)
Module TreeFacts.
Import XmlFacts.

Lemma string_length_app s t : String.length (s ++ t) = (String.length s + String.length t)%nat.
Proof. induction s as [|c s IH]; simpl; auto. Qed.

(** ** Notes and documents *)

(** The element a note renders to when lxml accepts its texts. *)
Definition note_element (n : Note.Note) (name : string) : Element :=
  Elem (qname RAM name) [] [] None
    (leaf (qname RAM "Content") [] (Note.content n)
     :: match Note.subject_code n with
        | Some c => if str_truthy (Some c) then [leaf (qname RAM "SubjectCode") [] c] else []
        | None => []
        end).

(** Whether lxml accepts the texts of a note. *)
Definition note_renderable (n : Note.Note) : bool :=
  xml_compatible (Note.content n)
  && match Note.subject_code n with Some c => xml_compatible c | None => true end.

Lemma note_to_xml_eq n name p :
  Note.to_xml n name p
  = if note_renderable n then Ok (note_element n name) else Error (ValueError msg_xml_text).
Proof.
  unfold Note.to_xml, note_renderable, note_element; rewrite text_leaf_eq.
  destruct (xml_compatible (Note.content n)); cbn [andb py_bind]; [|reflexivity].
  destruct (Note.subject_code n) as [[|a c]|]; cbn [str_truthy]; [reflexivity| |reflexivity].
  rewrite text_leaf_eq; destruct (xml_compatible (String a c)); reflexivity.
Qed.

Lemma note_renderable_iff n :
  note_renderable n = true
  <-> xml_compatible (Note.content n) = true
      /\ (forall c, Note.subject_code n = Some c -> xml_compatible c = true).
Proof.
  unfold note_renderable; rewrite andb_true_iff.
  destruct (Note.subject_code n) as [c|]; split.
  - intros [H1 H2]; split; [exact H1|intros c' E; injection E as <-; exact H2].
  - intros [H1 H2]; split; [exact H1|apply H2; reflexivity].
  - intros [H1 _]; split; [exact H1|discriminate].
  - intros [H1 _]; split; [exact H1|reflexivity].
Qed.

(** The element an [ExchangedDocument] renders to before its notes. *)
Definition document_base (d : ExchangedDocument.ExchangedDocument) (n : string) : Element :=
  Elem (qname RSM n) [] [] None
    [leaf (qname RAM "ID") [] (ExchangedDocument.id d);
     leaf (qname RAM "TypeCode") [] (ExchangedDocument.type_code d);
     Elem (qname RAM "IssueDateTime") [] [] None
       [leaf (qname UDT "DateTimeString") [("format", "102")]
          (strftime_Ymd (ExchangedDocument.issue_date_time d))]].

Lemma document_to_xml_eq d n p :
  ExchangedDocument.to_xml d n p
  = if xml_compatible (ExchangedDocument.id d) && xml_compatible (ExchangedDocument.type_code d)
    then if prof_ge p BASICWL && list_truthy (ExchangedDocument.included_notes d)
         then append_results (document_base d n)
                (map (fun note => Note.to_xml note "IncludedNote" p)
                   (match ExchangedDocument.included_notes d with Some l => l | None => [] end))
         else Ok (document_base d n)
    else Error (ValueError msg_xml_text).
Proof.
  unfold ExchangedDocument.to_xml; rewrite !text_leaf_eq.
  destruct (xml_compatible (ExchangedDocument.id d)); cbn [andb py_bind]; [|reflexivity].
  destruct (xml_compatible (ExchangedDocument.type_code d)); cbn [andb py_bind]; [|reflexivity].
  destruct (prof_ge p BASICWL && list_truthy (ExchangedDocument.included_notes d)); [|reflexivity].
  destruct (ExchangedDocument.included_notes d); reflexivity.
Qed.

Lemma document_ok d n p e :
  ExchangedDocument.to_xml d n p = Ok e ->
  xml_compatible (ExchangedDocument.id d) = true
  /\ xml_compatible (ExchangedDocument.type_code d) = true
  /\ exists note_els,
       Forall2 (fun note el => Note.to_xml note "IncludedNote" p = Ok el)
         (if prof_ge p BASICWL && list_truthy (ExchangedDocument.included_notes d)
          then match ExchangedDocument.included_notes d with Some l => l | None => [] end
          else []) note_els
       /\ e = fold_left append note_els (document_base d n).
Proof.
  rewrite document_to_xml_eq.
  destruct (xml_compatible (ExchangedDocument.id d)),
    (xml_compatible (ExchangedDocument.type_code d)); cbn [andb]; intros H; try discriminate.
  do 2 (split; [reflexivity|]).
  destruct (prof_ge p BASICWL && list_truthy (ExchangedDocument.included_notes d)).
  - destruct (append_results_ok _ _ _ H) as [els [Hf ->]].
    exists els; split; [apply Forall2_map_l in Hf; exact Hf|reflexivity].
  - injection H as <-; exists []; split; constructor.
Qed.

Lemma document_tag d n p e : ExchangedDocument.to_xml d n p = Ok e -> tag e = qname RSM n.
Proof.
  intros H; destruct (document_ok d n p e H) as [_ [_ [els [_ ->]]]]; apply fold_append_tag.
Qed.

Lemma filter_note_elements p notes els :
  Forall2 (fun note el => Note.to_xml note "IncludedNote" p = Ok el) notes els ->
  filter (fun e => String.eqb (tag e) (qname RAM "IncludedNote")) els = els.
Proof.
  induction 1 as [|n el ns els Hn Hf IH]; [reflexivity|].
  rewrite note_to_xml_eq in Hn; destruct (note_renderable n); [|discriminate].
  injection Hn as <-; cbn [filter tag note_element]; rewrite String.eqb_refl, IH; reflexivity.
Qed.

Lemma filter_document_base d n :
  filter (fun e => String.eqb (tag e) (qname RAM "IncludedNote")) (children (document_base d n)) = [].
Proof. reflexivity. Qed.

(** ** Trade tax *)


(** ** Transactions and the whole document *)

Lemma line_items_xml_eq t p :
  SupplyChainTradeTransaction.line_items_xml t p
  = if prof_ge p BASIC
    then map (fun it => SupplyChainTradeLineItem.to_xml it "IncludedSupplyChainTradeLineItem" p)
           (match SupplyChainTradeTransaction.included_supply_chain_trade_line_items t with
            | Some l => l | None => [] end)
    else [].
Proof.
  unfold SupplyChainTradeTransaction.line_items_xml.
  destruct (prof_ge p BASIC); [|reflexivity].
  destruct (SupplyChainTradeTransaction.included_supply_chain_trade_line_items t) as [[|it l]|];
    reflexivity.
Qed.

Lemma line_item_tag it n p e : SupplyChainTradeLineItem.to_xml it n p = Ok e -> tag e = qname RAM n.
Proof.
  unfold SupplyChainTradeLineItem.to_xml; intros H; ok_steps H; injection H as <-; reflexivity.
Qed.

Lemma agreement_tag a n p e : HeaderTradeAgreement.to_xml a n p = Ok e -> tag e = qname RAM n.
Proof.
  unfold HeaderTradeAgreement.to_xml; intros H; ok_steps H; injection H as <-; reflexivity.
Qed.

Lemma transaction_ok t n p e :
  fst (SupplyChainTradeTransaction.to_xml t n p) = Ok e ->
  exists item_els a_el d_el s_el,
    Forall2 (fun x el => x = Ok el) (SupplyChainTradeTransaction.line_items_xml t p) item_els
    /\ HeaderTradeAgreement.to_xml (SupplyChainTradeTransaction.applicable_header_trade_agreement t)
         "ApplicableHeaderTradeAgreement" p = Ok a_el
    /\ fst (HeaderTradeDelivery.to_xml (SupplyChainTradeTransaction.applicable_header_trade_delivery t)
              "ApplicableHeaderTradeDelivery" p) = Ok d_el
    /\ fst (HeaderTradeSettlement.to_xml
              (SupplyChainTradeTransaction.applicable_header_trade_settlement t)
              "ApplicableHeaderTradeSettlement" p) = Ok s_el
    /\ tag e = qname RSM n
    /\ children e = (item_els ++ [a_el; d_el; s_el])%list.
Proof.
  unfold SupplyChainTradeTransaction.to_xml; cbv zeta.
  destruct (append_results _ (SupplyChainTradeTransaction.line_items_xml t p)) as [r|] eqn:Ei;
    [|discriminate].
  destruct (HeaderTradeAgreement.to_xml _ _ _) as [a_el|] eqn:Ea; [|discriminate].
  destruct (HeaderTradeDelivery.to_xml _ _ _) as [[d_el|] d'] eqn:Ed; [|discriminate].
  cbn [SupplyChainTradeTransaction.applicable_header_trade_settlement
       SupplyChainTradeTransaction.set_delivery].
  destruct (HeaderTradeSettlement.to_xml _ _ _) as [[s_el|] s'] eqn:Es; [|discriminate].
  cbn [fst]; intros H; injection H as <-.
  destruct (append_results_ok _ _ _ Ei) as [els [Hf ->]].
  exists els, a_el, d_el, s_el.
  split; [exact Hf|]. split; [reflexivity|]. split; [reflexivity|].
  split; [reflexivity|].
  split; [rewrite !append_tag, fold_append_tag; reflexivity|].
  rewrite !append_children, fold_append_children; cbn [children new_element app].
  rewrite <- !app_assoc; reflexivity.
Qed.

Lemma facturx_ok data n p root :
  fst (FacturXData.to_xml data n p) = Ok root ->
  exists d_el t_el,
    ExchangedDocument.to_xml (FacturXData.exchanged_document data) FacturXData.DOCUMENT_ELEMENT p
      = Ok d_el
    /\ fst (SupplyChainTradeTransaction.to_xml (FacturXData.supply_chain_transaction data)
              FacturXData.TRANSACTION_ELEMENT p) = Ok t_el
    /\ root = Elem (qname RSM n) [] NAMESPACES None
                [ExchangedDocumentContext.to_xml (FacturXData.exchanged_document_context data)
                   FacturXData.CONTEXT_ELEMENT p; d_el; t_el].
Proof.
  unfold FacturXData.to_xml; cbv zeta.
  destruct (ExchangedDocument.to_xml _ _ _) as [d_el|] eqn:Ed; [|discriminate].
  destruct (SupplyChainTradeTransaction.to_xml _ _ _) as [[t_el|] t'] eqn:Et; [|discriminate].
  cbn [fst]; intros H; injection H as <-.
  exists d_el, t_el; split; [reflexivity|]. split; reflexivity.
Qed.

Lemma check_unique_spec items seen :
  (SupplyChainTradeTransaction.check_unique items seen = Ok tt
   <-> NoDup (map SupplyChainTradeTransaction.line_id_of items)
       /\ (forall x, In x (map SupplyChainTradeTransaction.line_id_of items) -> ~ In x seen))
  /\ (SupplyChainTradeTransaction.check_unique items seen = Ok tt
      \/ exists id, In id (map SupplyChainTradeTransaction.line_id_of items)
            /\ SupplyChainTradeTransaction.check_unique items seen
               = Error (SupplyChainTradeTransaction.msg_duplicate id)).
Proof.
  revert seen; induction items as [|it rest IH]; intro seen; simpl.
  - split; [|now left]. split; [intros _; split; [constructor | intros x []] | reflexivity].
  - set (id := SupplyChainTradeTransaction.line_id_of it).
    destruct (existsb (Z.eqb id) seen) eqn:E.
    + apply existsb_in in E. split.
      * split; [discriminate|]. intros [_ H]. exfalso; apply (H id); [now left | exact E].
      * right; exists id; split; [now left | reflexivity].
    + assert (Hn : ~ In id seen) by (intro H; apply existsb_in in H; congruence).
      destruct (IH (id :: seen)) as [Hiff Hor]. split.
      * rewrite Hiff, NoDup_cons_iff; split.
        -- intros [Hnd Hdis]; split; [split; [intro H; exact (Hdis id H (or_introl eq_refl)) | exact Hnd]|].
           intros x [<-|Hx]; [exact Hn|]. intro Hs; exact (Hdis x Hx (or_intror Hs)).
        -- intros [[Hnotin Hnd] Hdis]; split; [exact Hnd|].
           intros x Hx [<-|Hs]; [exact (Hnotin Hx)|exact (Hdis x (or_intror Hx) Hs)].
      * destruct Hor as [Hok|[x [Hx He]]]; [now left|right; exists x; split; [now right|exact He]].
Qed.
Lemma context_tag c n p : tag (ExchangedDocumentContext.to_xml c n p) = qname RSM n.
Proof.
  unfold ExchangedDocumentContext.to_xml.
  destruct (ExchangedDocumentContext.business_process_specified_document_context_parameter c)
    as [b|]; [destruct (str_truthy (Some b))|]; reflexivity.
Qed.

End TreeFacts.

(** ** Rendering claims *)
Module RenderClaims.
Import XmlFacts TreeFacts Examples.

(** C3 (code bug). Take an [ExchangedDocument] with a non-empty
    [included_notes] list whose id and type code lxml accepts. Rendered
    at MINIMUM, it gives an element with no [IncludedNote] child. Rendered
    at BASICWL or above, any element it returns has as [IncludedNote]
    children exactly the notes' renderings, one per note, in list order.
    But it returns an element only when lxml accepts every note's texts.
    The note validators accept a content with the control character
    U+0001, and such a note makes the render at BASICWL raise lxml's
    [ValueError]. *)
Theorem exchanged_document_notes_by_profile d name notes :
  ExchangedDocument.included_notes d = Some notes -> notes <> [] ->
  xml_compatible (ExchangedDocument.id d) = true ->
  xml_compatible (ExchangedDocument.type_code d) = true ->
  (exists e, ExchangedDocument.to_xml d name MINIMUM = Ok e
     /\ filter (fun e => String.eqb (tag e) (qname RAM "IncludedNote")) (children e) = [])
  /\ (forall p, prof_ge p BASICWL = true ->
        (forall e, ExchangedDocument.to_xml d name p = Ok e ->
           exists els, Forall2 (fun n el => Note.to_xml n "IncludedNote" p = Ok el) notes els
             /\ filter (fun e => String.eqb (tag e) (qname RAM "IncludedNote")) (children e) = els)
        /\ ((exists e, ExchangedDocument.to_xml d name p = Ok e)
            <-> Forall (fun n => xml_compatible (Note.content n) = true
                          /\ forall c, Note.subject_code n = Some c -> xml_compatible c = true)
                  notes))
  /\ Note.construct (String "a" (String (ascii_of_nat 1) "b")) None = Ok control_note
  /\ ExchangedDocument.id_field "INV-002" = Ok "INV-002"
  /\ ExchangedDocument.validate_notes document_with_control_note = Ok document_with_control_note
  /\ ExchangedDocument.to_xml document_with_control_note "ExchangedDocument" BASICWL
     = Error (ValueError msg_xml_text).
Proof.
  intros Hn Hne Hid Hty.
  assert (Ht : list_truthy (Some notes) = true) by (destruct notes; [contradiction|reflexivity]).
  split; [|split; [|split; [reflexivity|split; [reflexivity|split; reflexivity]]]].
  - exists (document_base d name); split; [|reflexivity].
    rewrite document_to_xml_eq, Hid, Hty; reflexivity.
  - intros p Hp; split.
    + intros e He; destruct (document_ok d name p e He) as [_ [_ [els [Hf ->]]]].
      rewrite Hp, Hn, Ht in Hf; cbn [andb] in Hf.
      exists els; split; [exact Hf|].
      rewrite fold_append_children, filter_app, filter_document_base.
      exact (filter_note_elements p notes els Hf).
    + rewrite document_to_xml_eq, Hid, Hty, Hp, Hn, Ht; cbn [andb].
      rewrite append_results_iff, Forall_map.
      split; intros Hf; eapply Forall_impl; try exact Hf; intros n Hn'.
      * apply note_renderable_iff; destruct Hn' as [e He].
        rewrite note_to_xml_eq in He; destruct (note_renderable n); [reflexivity|discriminate].
      * apply note_renderable_iff in Hn'; rewrite note_to_xml_eq, Hn'; eexists; reflexivity.
Qed.

Lemma exchanged_document_notes_by_profile_witness :
  (exists e, ExchangedDocument.to_xml document "ExchangedDocument" BASIC = Ok e)
  <-> Forall (fun n => xml_compatible (Note.content n) = true
                /\ forall c, Note.subject_code n = Some c -> xml_compatible c = true)
        [Note.mk "Thank you" None; Note.mk "Net 30" (Some "AAB")].
Proof.
  destruct (exchanged_document_notes_by_profile document "ExchangedDocument"
              [Note.mk "Thank you" None; Note.mk "Net 30" (Some "AAB")]
              eq_refl ltac:(discriminate) eq_refl eq_refl) as [_ [H _]].
  apply (H BASIC); reflexivity.
Defined.

(** C4 (code bug). For every [FacturXData] and every profile other than
    EXTENDED, [FacturXGenerator.generate] without Schematron validation
    returns what [FacturXData.to_xml] returns, and with validation it
    returns that root or an error. Any root it returns is
    [rsm:CrossIndustryInvoice] with the namespace map [NAMESPACES], whose
    prefixes are rsm, ram, qdt, udt, xsi. Its children are the context,
    the document and the transaction, in this order. The transaction's
    children are the line items' elements in list order when the profile
    is BASIC or above (none below), then the header agreement, delivery
    and settlement. But [generate] does not return a root for every
    [FacturXData]: a note whose content holds U+0001 passes validation and
    makes it raise [ValueError: Failed to create XML document: ...] at
    BASIC. *)
Theorem facturx_document_layout v data p :
  p <> EXTENDED ->
  let items := match SupplyChainTradeTransaction.included_supply_chain_trade_line_items
                       (FacturXData.supply_chain_transaction data) with
               | Some l => l | None => [] end in
  FacturXGenerator.generate v data p false = fst (FacturXData.to_xml data "CrossIndustryInvoice" p)
  /\ (forall r, FacturXGenerator.generate v data p true = Ok r ->
        fst (FacturXData.to_xml data "CrossIndustryInvoice" p) = Ok r)
  /\ (forall root, fst (FacturXData.to_xml data "CrossIndustryInvoice" p) = Ok root ->
        tag root = qname RSM "CrossIndustryInvoice"
        /\ nsmap root = NAMESPACES /\ map fst NAMESPACES = [RSM; RAM; QDT; UDT; XSI]
        /\ map tag (children root)
           = [qname RSM "ExchangedDocumentContext"; qname RSM "ExchangedDocument";
              qname RSM "SupplyChainTradeTransaction"]
        /\ exists tx item_els a_el d_el s_el,
             nth_error (children root) 2 = Some tx
             /\ Forall2 (fun it el =>
                  SupplyChainTradeLineItem.to_xml it "IncludedSupplyChainTradeLineItem" p = Ok el)
                  (if prof_ge p BASIC then items else []) item_els
             /\ children tx = (item_els ++ [a_el; d_el; s_el])%list
             /\ Forall (fun el => tag el = qname RAM "IncludedSupplyChainTradeLineItem") item_els
             /\ tag a_el = qname RAM "ApplicableHeaderTradeAgreement"
             /\ tag d_el = qname RAM "ApplicableHeaderTradeDelivery"
             /\ tag s_el = qname RAM "ApplicableHeaderTradeSettlement")
  /\ Note.construct (String "a" (String (ascii_of_nat 1) "b")) None = Ok control_note
  /\ FacturXGenerator.generate v data_with_control_note BASIC false
     = Error (ValueError ("Failed to create XML document: " ++ msg_xml_text)).
Proof.
  intros Hp items.
  assert (Hgen : forall b, FacturXGenerator.generate v data p b
                 = let? x := fst (FacturXData.to_xml data "CrossIndustryInvoice" p) in
                   if b then match v x p with Ok _ => Ok x | Error e => Error e end
                   else Ok x)
    by (intros b; destruct p; [..|contradiction]; reflexivity).
  split; [rewrite Hgen; destruct (fst (FacturXData.to_xml _ _ _)); reflexivity|].
  split.
  { intros r Hr; rewrite Hgen in Hr.
    destruct (fst (FacturXData.to_xml _ _ _)) as [x|e]; [|discriminate].
    cbn [py_bind] in Hr; destruct (v x p); congruence. }
  split; [|split; reflexivity].
  intros root Hr.
  destruct (facturx_ok _ _ _ _ Hr) as [d_el [t_el [Hd [Ht ->]]]].
  destruct (transaction_ok _ _ _ _ Ht) as [els [a_el [d_el' [s_el [Hf [Ha [Hd' [Hs [Htag Hc]]]]]]]]].
  split; [reflexivity|]. split; [reflexivity|]. split; [reflexivity|].
  split.
  { cbn [map children]; rewrite context_tag, (document_tag _ _ _ _ Hd), Htag; reflexivity. }
  exists t_el, els, a_el, d_el', s_el.
  assert (Hf' : Forall2 (fun it el =>
                  SupplyChainTradeLineItem.to_xml it "IncludedSupplyChainTradeLineItem" p = Ok el)
                  (if prof_ge p BASIC then items else []) els).
  { rewrite line_items_xml_eq in Hf; unfold items.
    destruct (prof_ge p BASIC); [apply Forall2_map_l in Hf; exact Hf|inversion Hf; constructor]. }
  split; [reflexivity|]. split; [exact Hf'|]. split; [exact Hc|].
  split.
  { clear Hf Hc; induction Hf' as [|it el l l' Hit _ IH];
      [constructor|constructor; [exact (line_item_tag _ _ _ _ Hit)|exact IH]]. }
  split; [exact (agreement_tag _ _ _ _ Ha)|].
  split; [exact (delivery_tag _ _ _ _ Hd')|exact (settlement_tag _ _ _ _ Hs)].
Qed.

Lemma facturx_document_layout_witness :
  FacturXGenerator.generate (fun _ _ => Ok tt) data BASIC false
  = fst (FacturXData.to_xml data "CrossIndustryInvoice" BASIC).
Proof.
  destruct (facturx_document_layout (fun _ _ => Ok tt) data BASIC ltac:(discriminate)) as [H _].
  exact H.
Defined.



(** C6 (code bug). [validate_transaction] would reject a transaction
    without line items whose [_profile] is BASIC or above, but no code
    sets [_profile]: a transaction built with no line items (absent or
    empty) is accepted, goes into a BASIC [FacturXData], and renders
    with no line item at BASIC. *)
Theorem transaction_without_items_accepted a d s doc :
  SupplyChainTradeTransaction.construct None a d s
  = Ok (SupplyChainTradeTransaction.mk None a d s None)
  /\ SupplyChainTradeTransaction.construct (Some []) a d s
     = Ok (SupplyChainTradeTransaction.mk (Some []) a d s None)
  /\ FacturXData.create BASIC doc (SupplyChainTradeTransaction.mk None a d s None) None
     = Ok (FacturXData.mk (ExchangedDocumentContext.mk None BASIC) doc
             (SupplyChainTradeTransaction.mk None a d s None))
  /\ SupplyChainTradeTransaction.line_items_xml (SupplyChainTradeTransaction.mk None a d s None) BASIC
     = []
  /\ SupplyChainTradeTransaction.validate_transaction
       (SupplyChainTradeTransaction.mk None a d s (Some BASIC))
     = Error SupplyChainTradeTransaction.msg_mandatory.
Proof. repeat split. Qed.

(** C7. For at most 999999 line items (the limit checked first),
    construction succeeds exactly when the line ids are pairwise
    distinct, and otherwise fails at construction with
    [ValueError: Duplicate line ID: <id>] for an id of the list. *)
Theorem duplicate_line_id_rejected items a d s :
  (Z.of_nat (length items) <= 999999)%Z ->
  (NoDup (map SupplyChainTradeTransaction.line_id_of items)
   <-> SupplyChainTradeTransaction.construct (Some items) a d s
       = Ok (SupplyChainTradeTransaction.mk (Some items) a d s None))
  /\ (~ NoDup (map SupplyChainTradeTransaction.line_id_of items) ->
      exists id, In id (map SupplyChainTradeTransaction.line_id_of items)
        /\ SupplyChainTradeTransaction.construct (Some items) a d s
           = Error (SupplyChainTradeTransaction.msg_duplicate id)).
Proof.
  intros Hlen.
  assert (Hc : SupplyChainTradeTransaction.construct (Some items) a d s
               = match SupplyChainTradeTransaction.check_unique items [] with
                 | Ok _ => Ok (SupplyChainTradeTransaction.mk (Some items) a d s None)
                 | Error e => Error e
                 end).
  { unfold SupplyChainTradeTransaction.construct, SupplyChainTradeTransaction.validate_transaction.
    cbn [SupplyChainTradeTransaction._profile
         SupplyChainTradeTransaction.included_supply_chain_trade_line_items].
    destruct items as [|it rest]; [reflexivity|].
    cbn [list_truthy].
    destruct (999999 <? Z.of_nat (length (it :: rest)))%Z eqn:Elt;
      [apply Z.ltb_lt in Elt; lia|].
    destruct (SupplyChainTradeTransaction.check_unique (it :: rest) []); reflexivity. }
  rewrite Hc.
  destruct (check_unique_spec items []) as [Hiff Hor].
  split; [split|].
  - intros Hnd; rewrite (proj2 Hiff (conj Hnd (fun x _ H => H))); reflexivity.
  - destruct (SupplyChainTradeTransaction.check_unique items []) as [[]|e] eqn:E;
      [intros _; exact (proj1 (proj1 Hiff eq_refl))|discriminate].
  - intros Hnd; destruct Hor as [Hok|[x [Hx He]]].
    + exfalso; apply Hnd, (proj1 (proj1 Hiff Hok)).
    + exists x; split; [exact Hx|rewrite He; reflexivity].
Qed.

Lemma duplicate_line_id_rejected_witness :
  SupplyChainTradeTransaction.construct (Some [line_item 1; line_item 1]) agreement delivery settlement
  = Error (SupplyChainTradeTransaction.msg_duplicate 1)
  /\ SupplyChainTradeTransaction.construct (Some [line_item 1; line_item 2]) agreement delivery settlement
     = Ok (SupplyChainTradeTransaction.mk (Some [line_item 1; line_item 2]) agreement delivery
             settlement None).
Proof.
  split.
  - destruct (duplicate_line_id_rejected [line_item 1; line_item 1] agreement delivery settlement
                ltac:(simpl; lia)) as [_ Hdup].
    destruct Hdup as [x [Hx He]].
    + intro H; inversion H as [|? ? Hnot]; apply Hnot; left; reflexivity.
    + simpl in Hx; destruct Hx as [<-|[<-|[]]]; exact He.
  - apply (duplicate_line_id_rejected [line_item 1; line_item 2] agreement delivery settlement
             ltac:(simpl; lia)).
    simpl; constructor; [intros [H|[]]; discriminate|constructor; [intros []|constructor]].
Defined.
End RenderClaims.

(** ** Dates and the context parameter *)
Module DateClaims.
Import XmlFacts TreeFacts Examples.




(** C10. The [ID] inside [GuidelineSpecifiedDocumentContextParameter]
    holds the URN of the profile passed to [to_xml]; the stored
    [guideline_specified_document_context_parameter] has no effect on the
    element. *)
Theorem guideline_id_from_render_profile ctx name p q :
  last (children (ExchangedDocumentContext.to_xml ctx name p)) (new_element "")
  = Elem (qname RAM "GuidelineSpecifiedDocumentContextParameter") [] [] None
      [leaf (qname RAM "ID") [] (value p)]
  /\ ExchangedDocumentContext.to_xml ctx name p
     = ExchangedDocumentContext.to_xml
         (ExchangedDocumentContext.mk
            (ExchangedDocumentContext.business_process_specified_document_context_parameter ctx) q)
         name p.
Proof.
  split.
  - unfold ExchangedDocumentContext.to_xml; rewrite append_children, last_last; reflexivity.
  - destruct ctx; reflexivity.
Qed.
End DateClaims.

(** * Further properties of the code *)

Module StringFacts.

Lemma string_app_assoc s t u : ((s ++ t) ++ u) = (s ++ (t ++ u)).
Proof. induction s; simpl; congruence. Qed.

Lemma length_list_ascii s : String.length s = length (list_ascii_of_string s).
Proof. induction s; simpl; congruence. Qed.

Lemma list_ascii_app s t :
  list_ascii_of_string (s ++ t) = (list_ascii_of_string s ++ list_ascii_of_string t)%list.
Proof. induction s; simpl; congruence. Qed.

Lemma drop_while_split f l :
  exists w, l = (w ++ drop_while f l)%list /\ forallb f w = true.
Proof.
  induction l as [|c l IH]; simpl.
  - exists []; auto.
  - destruct (f c) eqn:E.
    + destruct IH as [w [H1 H2]]. exists (c :: w). simpl. rewrite E, H2.
      split; [congruence | reflexivity].
    + exists []; auto.
Qed.

Lemma drop_while_head f l c r : drop_while f l = c :: r -> f c = false.
Proof.
  induction l as [|a l IH]; simpl; [discriminate|].
  destruct (f a) eqn:E; auto. intros H; inversion H; subst; auto.
Qed.

Lemma forallb_rev {A} (f : A -> bool) l : forallb f (rev l) = forallb f l.
Proof.
  induction l; simpl; auto. rewrite forallb_app, IHl; simpl.
  rewrite andb_true_r, andb_comm; reflexivity.
Qed.

(** The stripped string sits between two runs of stripped characters. *)
Lemma strip_with_decomp f s :
  exists w1 w2,
    list_ascii_of_string s = (w1 ++ list_ascii_of_string (strip_with f s) ++ w2)%list
    /\ forallb f w1 = true /\ forallb f w2 = true.
Proof.
  unfold strip_with. rewrite list_ascii_of_string_of_list_ascii.
  set (L := list_ascii_of_string s).
  destruct (drop_while_split f L) as [w1 [H1 F1]].
  set (M := drop_while f L) in *.
  destruct (drop_while_split f (rev M)) as [w2 [H2 F2]].
  exists w1, (rev w2). split; [|split; auto; rewrite forallb_rev; auto].
  rewrite H1 at 1. f_equal.
  rewrite <- (rev_involutive M) at 1. rewrite H2 at 1. rewrite rev_app_distr. reflexivity.
Qed.

Lemma strip_with_last f s c r :
  rev (list_ascii_of_string (strip_with f s)) = c :: r -> f c = false.
Proof.
  unfold strip_with. rewrite list_ascii_of_string_of_list_ascii, rev_involutive.
  apply drop_while_head.
Qed.

Lemma strip_with_first f s c r :
  list_ascii_of_string (strip_with f s) = c :: r -> f c = false.
Proof.
  unfold strip_with. rewrite list_ascii_of_string_of_list_ascii.
  set (M := drop_while f (list_ascii_of_string s)).
  destruct (drop_while_split f (rev M)) as [w2 [H2 F2]].
  intros H.
  assert (HM : M = (rev (drop_while f (rev M)) ++ rev w2)%list).
  { rewrite <- (rev_involutive M) at 1. rewrite H2 at 1. rewrite rev_app_distr. reflexivity. }
  rewrite H in HM. simpl in HM.
  unfold M in HM. apply (drop_while_head f (list_ascii_of_string s) c (r ++ rev w2)%list).
  rewrite HM. reflexivity.
Qed.

Lemma strip_with_length f s : (String.length (strip_with f s) <= String.length s)%nat.
Proof.
  destruct (strip_with_decomp f s) as [w1 [w2 [H _]]].
  rewrite !length_list_ascii, H, !length_app. lia.
Qed.

Lemma bool_iff_intro (a b : bool) : (a = true <-> b = true) -> a = b.
Proof. destruct a, b; intuition congruence. Qed.

End StringFacts.

Module NamespaceFacts.

Lemma has_key_cases p :
  ns_has_key NAMESPACES p = true -> p = RSM \/ p = RAM \/ p = QDT \/ p = UDT \/ p = XSI.
Proof.
  unfold ns_has_key, NAMESPACES; cbn -[String.eqb].
  repeat match goal with |- context [String.eqb p ?k] => destruct (String.eqb_spec p k) end;
    subst; simpl; intros; auto 6; discriminate.
Qed.

(** X1: [get_qualified_name] gives the Clark name [{uri}local] that every
    [to_xml] builds with [f"{{{NAMESPACES[prefix]}}}{name}"], and raises
    [KeyError] for a prefix that is not a key of [NAMESPACES]. *)
Theorem get_qualified_name_matches_qname prefix local_name :
  get_qualified_name prefix local_name =
  if ns_has_key NAMESPACES prefix then Ok (qname prefix local_name)
  else Error ("KeyError: Unknown namespace prefix: " ++ prefix).
Proof.
  unfold get_qualified_name. destruct (ns_has_key NAMESPACES prefix) eqn:E; [|reflexivity].
  destruct (has_key_cases _ E) as [ -> | [ -> | [ -> | [ -> | -> ]]]]; reflexivity.
Qed.

(** X2: [get_prefix_for_uri] inverts [NAMESPACES]: it returns [prefix]
    for [uri] exactly when [prefix] is a key whose URI is [uri]. *)
Theorem get_prefix_for_uri_inverts_namespaces uri prefix :
  get_prefix_for_uri uri = Ok prefix <->
  ns_has_key NAMESPACES prefix = true /\ ns_lookup NAMESPACES prefix = uri.
Proof.
  split.
  - unfold get_prefix_for_uri, NAMESPACES; cbn -[String.eqb].
    repeat match goal with |- context [String.eqb ?a uri] => destruct (String.eqb_spec a uri) end;
      intros H; inversion H; subst; split; reflexivity.
  - intros [H1 H2]. subst uri.
    destruct (has_key_cases _ H1) as [ -> | [ -> | [ -> | [ -> | -> ]]]]; reflexivity.
Qed.

(** X3: [get_prefix_for_uri] raises [ValueError] exactly on the URIs that
    [is_valid_namespace] rejects. *)
Theorem get_prefix_for_uri_fails_iff_invalid uri :
  is_valid_namespace uri = false <->
  get_prefix_for_uri uri = Error ("ValueError: Unknown namespace URI: " ++ uri).
Proof.
  unfold is_valid_namespace, get_prefix_for_uri, NAMESPACES; cbn -[String.eqb].
  repeat match goal with |- context [String.eqb ?a ?b] => destruct (String.eqb_spec a b) end;
    subst; try congruence; simpl; split; intros H; (reflexivity || discriminate).
Qed.

End NamespaceFacts.

Module GeneratorFacts.

Lemma py_join_cons_nonempty sep x l : x <> "" -> py_join sep (x :: l) <> "".
Proof. destruct x; [congruence|]. destruct l; simpl; discriminate. Qed.

(** X4: a Schematron result passes exactly when it has no failed assertion
    and no report, and a [SchematronValidationError] never carries an
    empty message. *)
Theorem schematron_result_message failed_asserts reports :
  (FacturXGenerator.check_validation_result failed_asserts reports = Ok tt
   <-> failed_asserts = [] /\ reports = [])
  /\ (FacturXGenerator.is_valid failed_asserts reports = false
      <-> FacturXGenerator._format_message failed_asserts reports <> "").
Proof.
  unfold FacturXGenerator.check_validation_result, FacturXGenerator.is_valid,
    FacturXGenerator._format_message.
  destruct failed_asserts as [|a fa], reports as [|r rs]; simpl;
    (split; [split; [intros H; (discriminate || auto) | intros [H1 H2]; (discriminate || auto)]|]).
  - split; [discriminate | intros H; exfalso; apply H; reflexivity].
  - split; [intros _ | reflexivity]. first [discriminate | apply py_join_cons_nonempty; discriminate].
  - split; [intros _ | reflexivity]. first [discriminate | apply py_join_cons_nonempty; discriminate].
  - split; [intros _ | reflexivity]. first [discriminate | apply py_join_cons_nonempty; discriminate].
Qed.

End GeneratorFacts.

Module TransactionFacts.
Import XmlFacts TreeFacts SupplyChainTradeTransaction.

Lemma item_elements_tagged t p els :
  Forall2 (fun x el => x = Ok el) (line_items_xml t p) els ->
  filter (fun e => String.eqb (tag e) (qname RAM "IncludedSupplyChainTradeLineItem")) els = els.
Proof.
  rewrite line_items_xml_eq; destruct (prof_ge p BASIC); intros Hf.
  - apply Forall2_map_l in Hf; induction Hf as [|it el l l' Hit _ IH]; [reflexivity|].
    cbn [filter]; rewrite (line_item_tag _ _ _ _ Hit), String.eqb_refl, IH; reflexivity.
  - inversion Hf; reflexivity.
Qed.

(** X5: [has_line_items] holds exactly when [get_line_count] is not zero;
    [to_xml] renders one line item per counted item from BASIC on, none
    below, and an element it returns has that many
    [IncludedSupplyChainTradeLineItem] children. *)
Theorem line_count_matches_rendered_items t p :
  has_line_items t = negb (Nat.eqb (get_line_count t) 0)
  /\ length (line_items_xml t p) = (if prof_ge p BASIC then get_line_count t else 0%nat)
  /\ forall name e, fst (to_xml t name p) = Ok e ->
       length (filter (fun c => String.eqb (tag c) (qname RAM "IncludedSupplyChainTradeLineItem"))
                 (children e))
       = (if prof_ge p BASIC then get_line_count t else 0%nat).
Proof.
  assert (Hlen : length (line_items_xml t p)
                 = (if prof_ge p BASIC then get_line_count t else 0%nat)).
  { unfold get_line_count, line_items_xml.
    destruct (included_supply_chain_trade_line_items t) as [[|x l]|]; simpl;
      destruct (prof_ge p BASIC); simpl; auto.
    rewrite length_map; reflexivity. }
  split; [|split; [exact Hlen|]].
  { unfold has_line_items, get_line_count.
    destruct (included_supply_chain_trade_line_items t) as [[|x l]|]; reflexivity. }
  intros name e He.
  destruct (transaction_ok _ _ _ _ He) as [els [a_el [d_el [s_el [Hf [Ha [Hd [Hs [_ Hc]]]]]]]]].
  rewrite Hc, filter_app, (item_elements_tagged _ _ _ Hf); cbn [filter].
  rewrite (agreement_tag _ _ _ _ Ha), (delivery_tag _ _ _ _ Hd), (settlement_tag _ _ _ _ Hs).
  assert (F1 : String.eqb (qname RAM "ApplicableHeaderTradeAgreement")
                 (qname RAM "IncludedSupplyChainTradeLineItem") = false) by reflexivity.
  assert (F2 : String.eqb (qname RAM "ApplicableHeaderTradeDelivery")
                 (qname RAM "IncludedSupplyChainTradeLineItem") = false) by reflexivity.
  assert (F3 : String.eqb (qname RAM "ApplicableHeaderTradeSettlement")
                 (qname RAM "IncludedSupplyChainTradeLineItem") = false) by reflexivity.
  rewrite F1, F2, F3, app_nil_r, <- Hlen; symmetry; exact (Forall2_length Hf).
Qed.

Lemma line_count_matches_rendered_items_witness :
  fst (to_xml Examples.transaction "SupplyChainTradeTransaction" BASIC)
    = Ok (match fst (to_xml Examples.transaction "SupplyChainTradeTransaction" BASIC) with
          | Ok e => e | Error _ => new_element "" end)
  /\ length (filter (fun c => String.eqb (tag c) (qname RAM "IncludedSupplyChainTradeLineItem"))
       (children (match fst (to_xml Examples.transaction "SupplyChainTradeTransaction" BASIC) with
                  | Ok e => e | Error _ => new_element "" end))) = 2%nat.
Proof.
  assert (H : fst (to_xml Examples.transaction "SupplyChainTradeTransaction" BASIC)
              = Ok (match fst (to_xml Examples.transaction "SupplyChainTradeTransaction" BASIC) with
                    | Ok e => e | Error _ => new_element "" end)) by (vm_compute; reflexivity).
  split; [exact H|].
  exact (proj2 (proj2 (line_count_matches_rendered_items Examples.transaction BASIC)) _ _ H).
Defined.

End TransactionFacts.

Module DataFacts.

Lemma existsb_eqb_in x l : existsb (String.eqb x) l = true <-> In x l.
Proof.
  rewrite existsb_exists. split.
  - intros [y [Hy E]]. apply String.eqb_eq in E. subst; auto.
  - intros H. exists x. split; auto. apply String.eqb_refl.
Qed.

(** X6: [get_invoice_number] and [get_invoice_date] always raise
    [AttributeError]: [ExchangedDocument] has no attribute [invoice_number]
    or [issue_date] (its fields are [id] and [issue_date_time]). *)
Theorem invoice_getters_raise inherited_names d
  (H1 : ~ In "invoice_number" inherited_names) (H2 : ~ In "issue_date" inherited_names) :
  FacturXData.get_invoice_number inherited_names d =
    Error "AttributeError: 'ExchangedDocument' object has no attribute 'invoice_number'"
  /\ FacturXData.get_invoice_date inherited_names d =
    Error "AttributeError: 'ExchangedDocument' object has no attribute 'issue_date'".
Proof.
  unfold FacturXData.get_invoice_number, FacturXData.get_invoice_date, ExchangedDocument.getattr.
  rewrite !existsb_app.
  destruct (existsb (String.eqb "invoice_number") inherited_names) eqn:E1.
  { apply existsb_eqb_in in E1. contradiction. }
  destruct (existsb (String.eqb "issue_date") inherited_names) eqn:E2.
  { apply existsb_eqb_in in E2. contradiction. }
  split; reflexivity.
Qed.

Lemma invoice_getters_raise_witness :
  ~ In "invoice_number" ["model_dump"; "model_validate"; "to_xml_string"; "from_xml"]
  /\ ~ In "issue_date" ["model_dump"; "model_validate"; "to_xml_string"; "from_xml"]
  /\ FacturXData.get_invoice_number ["model_dump"; "model_validate"; "to_xml_string"; "from_xml"]
       Examples.data =
     Error "AttributeError: 'ExchangedDocument' object has no attribute 'invoice_number'".
Proof.
  assert (A : ~ In "invoice_number" ["model_dump"; "model_validate"; "to_xml_string"; "from_xml"])
    by (simpl; intuition discriminate).
  assert (B : ~ In "issue_date" ["model_dump"; "model_validate"; "to_xml_string"; "from_xml"])
    by (simpl; intuition discriminate).
  split; [exact A | split; [exact B |]].
  exact (proj1 (invoice_getters_raise _ Examples.data A B)).
Defined.

End DataFacts.

Module LineIdFacts.
Import DocumentLineDocument.

(** X7: [validate_line_id] never raises: the field constraints [gt=0] and
    [lt=1000000] reject every value it would reject, first. *)
Theorem line_id_validator_messages_unreachable v :
  line_id_field v <> Error (ValidationError "Line ID must be a positive number")
  /\ line_id_field v <> Error (ValidationError "Line ID is too large (maximum: 999999)").
Proof.
  unfold line_id_field, validate_line_id.
  destruct (Z.ltb_spec 0 v); simpl; [|split; discriminate].
  destruct (Z.ltb_spec v 1000000); simpl; [|split; discriminate].
  destruct (Z.leb_spec v 0); [lia|]. destruct (Z.leb_spec 1000000 v); [lia|].
  split; discriminate.
Qed.

Lemma code_digit d : 0 <= d < 10 -> code (digit d) = 48 + d.
Proof. intros H. unfold code, digit. rewrite nat_ascii_embedding by lia. lia. Qed.

Lemma is_digit_digit d : 0 <= d < 10 -> is_digit (digit d) = true.
Proof.
  intros H. unfold is_digit. change (Z.of_nat (nat_of_ascii (digit d))) with (code (digit d)).
  rewrite code_digit by lia. apply andb_true_iff; split; apply Z.leb_le; lia.
Qed.

Lemma digits_value_app s t a : digits_value (s ++ t) a = digits_value t (digits_value s a).
Proof. revert a; induction s; simpl; auto. Qed.

Lemma pow10_succ k : 10 ^ Z.of_nat (S k) = 10 * 10 ^ Z.of_nat k.
Proof. rewrite Nat2Z.inj_succ, Z.pow_succ_r by lia. reflexivity. Qed.

Lemma dec_aux_spec fuel : forall n acc, 0 <= n < 10 ^ Z.of_nat fuel ->
  exists p, dec_aux fuel n acc = p ++ acc /\ all_digits p = true /\ digits_value p 0 = n
    /\ (forall k, (0 < k)%nat -> n < 10 ^ Z.of_nat k -> (String.length p <= k)%nat).
Proof.
  induction fuel as [|f IH]; intros n acc Hn.
  - change (10 ^ Z.of_nat 0) with 1 in Hn. exists "". cbn [dec_aux String.append].
    repeat split; try reflexivity; intros; cbn [String.length digits_value]; lia.
  - assert (Hm := Z.mod_pos_bound n 10 ltac:(lia)).
    assert (Hd := Z.div_mod n 10 ltac:(lia)).
    cbn [dec_aux]. destruct (Z.eqb_spec (n / 10) 0) as [E|E].
    + exists (String (digit (n mod 10)) ""). split; [reflexivity|].
      split; [cbn [all_digits]; rewrite is_digit_digit by lia; reflexivity|].
      split; [cbn [digits_value]; rewrite code_digit by lia; lia|].
      intros k Hk _. cbn [String.length]. lia.
    + assert (Hq : 0 <= n / 10 < 10 ^ Z.of_nat f).
      { rewrite pow10_succ in Hn. split; [apply Z.div_pos; lia|].
        apply Z.div_lt_upper_bound; lia. }
      destruct (IH (n / 10) (String (digit (n mod 10)) acc) Hq) as [p [H1 [H2 [H3 H4]]]].
      exists (p ++ String (digit (n mod 10)) "").
      split; [rewrite H1, StringFacts.string_app_assoc; reflexivity|].
      split; [rewrite XmlFacts.all_digits_app, H2; cbn [all_digits andb];
              rewrite is_digit_digit by lia; reflexivity|].
      split; [rewrite digits_value_app, H3; cbn [digits_value]; rewrite code_digit by lia; lia|].
      intros k Hk Hlt. rewrite TreeFacts.string_length_app. cbn [String.length].
      destruct k as [|k]; [lia|]. destruct k as [|k].
      * change (10 ^ Z.of_nat 1) with 10 in Hlt. lia.
      * rewrite pow10_succ in Hlt.
        assert (n / 10 < 10 ^ Z.of_nat (S k)) by (apply Z.div_lt_upper_bound; lia).
        specialize (H4 (S k) ltac:(lia) H). lia.
Qed.

Lemma string_app_nil_r s : s ++ "" = s.
Proof. induction s; simpl; congruence. Qed.

Lemma str_int_spec n : 0 <= n ->
  all_digits (str_int n) = true /\ digits_value (str_int n) 0 = n
  /\ (forall k, (0 < k)%nat -> n < 10 ^ Z.of_nat k -> (String.length (str_int n) <= k)%nat).
Proof.
  intros Hn. unfold str_int. destruct (Z.ltb_spec n 0); [lia|].
  destruct (dec_aux_spec (S (Z.to_nat (Z.log2 (Z.abs n)))) n "") as [p [H1 [H2 [H3 H4]]]].
  { split; [lia|]. rewrite Z.abs_eq by lia.
    rewrite Nat2Z.inj_succ, Z2Nat.id by apply Z.log2_nonneg.
    assert (Hl : n < 2 ^ Z.succ (Z.log2 n)).
    { destruct (Z.eq_dec n 0) as [->|Hz]; [reflexivity|].
      apply Z.log2_spec; lia. }
    eapply Z.lt_le_trans; [exact Hl|].
    apply Z.pow_le_mono_l; split; [lia|lia]. }
  rewrite H1, string_app_nil_r. auto.
Qed.

(** X8: a line item's document line with an accepted line id renders
    (it raises only through its note), and the [LineID] text of any
    element it returns is the id's decimal numeral: digits only, at most
    six of them, text that lxml accepts, and [int(text)] gives the id
    back. *)
Theorem line_id_text_round_trip ld included_note element_name profile :
  line_id_field (line_id ld) = Ok (line_id ld) ->
  (exists e, to_xml ld None element_name profile = Ok e)
  /\ forall e, to_xml ld included_note element_name profile = Ok e ->
     exists s,
       hd_error (children e) = Some (leaf (qname RAM "LineID") [] s)
       /\ all_digits s = true /\ digits_value s 0 = line_id ld /\ (String.length s <= 6)%nat
       /\ xml_compatible s = true.
Proof.
  intros H. unfold line_id_field, validate_line_id in H.
  destruct (Z.ltb_spec 0 (line_id ld)); [|discriminate].
  destruct (Z.ltb_spec (line_id ld) 1000000); [|discriminate].
  destruct (str_int_spec (line_id ld)) as [A1 [A2 A3]]; [lia|].
  split; [eexists; reflexivity|].
  intros e He; exists (str_int (line_id ld)). split.
  - unfold to_xml in He; destruct included_note as [n|].
    + destruct (Note.to_xml n "IncludedNote" profile); [|discriminate].
      injection He as <-; reflexivity.
    + injection He as <-; reflexivity.
  - split; [exact A1|]. split; [exact A2|]. split; [apply A3; [lia|assumption]|].
    exact (XmlFacts.all_digits_compatible _ A1).
Qed.

Lemma line_id_text_round_trip_witness :
  line_id_field 42 = Ok 42 /\
  exists e, to_xml (mk 42) None "AssociatedDocumentLineDocument" BASIC = Ok e.
Proof.
  split; [reflexivity|].
  exact (proj1 (line_id_text_round_trip (mk 42) None "AssociatedDocumentLineDocument" BASIC
                  eq_refl)).
Defined.

End LineIdFacts.


Module SummationRender.
Import TradeSettlementHeaderMonetarySummation.

Lemma children_append r c : children (append r c) = (children r ++ [c])%list.
Proof. reflexivity. Qed.

Lemma length_children_append r c : length (children (append r c)) = S (length (children r)).
Proof. rewrite children_append, length_app. simpl. lia. Qed.

Lemma length_amount_leaf f r n o :
  length (children (amount_leaf f r n o)) = (length (children r) + Nat.b2n (is_some o))%nat.
Proof. unfold amount_leaf. destruct o; [rewrite length_children_append|]; cbn [is_some Nat.b2n]; lia. Qed.

Lemma amount_leaf_extends f r n o : XmlFacts.extends r (amount_leaf f r n o).
Proof.
  destruct o; simpl; auto using XmlFacts.extends_append, XmlFacts.extends_refl.
Qed.

(** X9: the number of elements [to_xml] renders: the three mandatory
    amounts, [TaxTotalAmount] when present, the present line, charge,
    allowance and prepaid amounts from BASICWL on, and the present
    rounding amount from EN16931 on. *)
Theorem rendered_amount_count fmt_2f s element_name profile :
  length (children (to_xml fmt_2f s element_name profile)) =
  (3 + Nat.b2n (is_some (tax_total_amount s))
   + (if prof_ge profile BASICWL
      then Nat.b2n (is_some (line_total_amount s)) + Nat.b2n (is_some (charge_total_amount s))
           + Nat.b2n (is_some (allowance_total_amount s))
           + Nat.b2n (is_some (total_prepaid_amount s))
      else 0)
   + (if prof_ge profile EN16931 then Nat.b2n (is_some (rounding_amount s)) else 0))%nat.
Proof.
  unfold to_xml.
  destruct (prof_ge profile BASICWL), (prof_ge profile EN16931); cbv beta iota zeta;
    destruct (tax_total_amount s); cbv beta iota;
    repeat first [rewrite length_children_append | rewrite length_amount_leaf];
    cbn [new_element children length is_some Nat.b2n]; lia.
Qed.

Lemma currency_ok_truthy c : currency_ok (Some c) = true -> currency_attrib (Some c) = [("currencyID", c)].
Proof.
  unfold currency_ok, currency_attrib, str_truthy. intros H.
  apply andb_true_iff in H as [H _]. destruct c; [discriminate|reflexivity].
Qed.

Ltac climb :=
  match goal with
  | |- In ?c (children (append ?r ?c)) =>
      rewrite children_append; apply in_or_app; right; left; reflexivity
  | |- In ?c (children (append ?r _)) =>
      apply (XmlFacts.extends_in r); [apply XmlFacts.extends_append, XmlFacts.extends_refl|]; climb
  | |- In ?c (children (amount_leaf _ ?r _ _)) =>
      apply (XmlFacts.extends_in r); [apply amount_leaf_extends|]; climb
  end.

(** X10: in a summation that construction accepts, a rendered
    [TaxTotalAmount] always carries its [currencyID] attribute: the field
    check makes a given currency code three letters long, hence truthy. *)
Theorem valid_summation_tax_total_has_currency fmt_2f s element_name profile t c :
  construct s = Ok s -> tax_total_amount s = Some t -> tax_currency_code s = Some c ->
  In (leaf (qname RAM "TaxTotalAmount") [("currencyID", c)] (fmt_2f t))
     (children (to_xml fmt_2f s element_name profile)).
Proof.
  intros H Ht Hc. unfold construct in H.
  destruct (field_checks s) eqn:F; [|discriminate].
  unfold field_checks in F. rewrite Hc in F.
  repeat rewrite andb_true_iff in F.
  assert (HC := currency_ok_truthy c ltac:(tauto)).
  unfold to_xml. rewrite Ht, Hc, HC.
  destruct (prof_ge profile BASICWL), (prof_ge profile EN16931); cbv beta iota zeta; climb.
Qed.

Lemma valid_summation_tax_total_has_currency_witness :
  construct Examples.summation = Ok Examples.summation /\
  exists t, tax_total_amount Examples.summation = Some t /\
  In (leaf (qname RAM "TaxTotalAmount") [("currencyID", "EUR")] "4.90")
     (children (to_xml (fun _ => "4.90") Examples.summation
                  "SpecifiedTradeSettlementHeaderMonetarySummation" BASIC)).
Proof.
  split; [vm_compute; reflexivity|].
  eexists; split; [reflexivity|].
  eapply (valid_summation_tax_total_has_currency (fun _ => "4.90") Examples.summation
           "SpecifiedTradeSettlementHeaderMonetarySummation" BASIC _ "EUR");
    [vm_compute; reflexivity | reflexivity | reflexivity].
Defined.

End SummationRender.

Module NoteFacts.
Import Note.

Ltac bool_to_prop :=
  repeat first [ rewrite orb_true_iff in * | rewrite andb_true_iff in *
               | rewrite Z.leb_le in * | rewrite Z.eqb_eq in * ].

Ltac split_cmp :=
  repeat match goal with
  | |- context [Z.leb ?a ?b] => destruct (Z.leb_spec a b)
  | |- context [Z.eqb ?a ?b] => destruct (Z.eqb_spec a b)
  end.

Lemma rust_ws_py c : rust_is_whitespace c = true -> py_isspace c = true.
Proof.
  unfold rust_is_whitespace, py_isspace. generalize (code c) as n; intros n H.
  bool_to_prop. lia.
Qed.

Lemma boundary_space c : is_line_boundary c = true -> py_isspace c = true.
Proof.
  unfold is_line_boundary, py_isspace. generalize (code c) as n; intros n H.
  bool_to_prop. lia.
Qed.

Lemma forallb_rust_py w : forallb rust_is_whitespace w = true -> forallb py_isspace w = true.
Proof.
  rewrite !forallb_forall. intros H x Hx. apply rust_ws_py, H, Hx.
Qed.

Lemma split_aux_spaces_l w l :
  forallb py_isspace w = true -> split_aux (w ++ l) [] = split_aux l [].
Proof.
  induction w as [|c w IH]; simpl; auto.
  intros H. apply andb_true_iff in H as [H1 H2]. rewrite H1. auto.
Qed.

Lemma split_aux_all_space w : forallb py_isspace w = true -> split_aux w [] = [].
Proof.
  intros H. rewrite <- (app_nil_r w). rewrite split_aux_spaces_l; auto.
Qed.

Lemma split_aux_spaces_r m w cur :
  forallb py_isspace w = true -> split_aux (m ++ w) cur = split_aux m cur.
Proof.
  intros Hw. revert cur. induction m as [|c m IH]; intros cur; simpl.
  - destruct w as [|c w]; [reflexivity|].
    simpl in Hw. apply andb_true_iff in Hw as [H1 H2].
    simpl. rewrite H1, split_aux_all_space by exact H2. destruct cur; reflexivity.
  - destruct (py_isspace c); [destruct cur|]; rewrite ?IH; reflexivity.
Qed.

(** [str.split()] ignores what [str_strip_whitespace] removes. *)
Lemma py_split_rust_trim c : py_split (rust_trim c) = py_split c.
Proof.
  unfold py_split, rust_trim.
  destruct (StringFacts.strip_with_decomp rust_is_whitespace c) as [w1 [w2 [H [F1 F2]]]].
  rewrite H.
  rewrite split_aux_spaces_l by (apply forallb_rust_py; exact F1).
  rewrite split_aux_spaces_r by (apply forallb_rust_py; exact F2).
  reflexivity.
Qed.

Lemma no_space_rev l : no_space (rev l) = no_space l.
Proof. apply StringFacts.forallb_rev. Qed.

Lemma split_aux_words l cur :
  no_space cur = true -> Forall word (split_aux l cur).
Proof.
  revert cur. induction l as [|c l IH]; intros cur Hc; simpl.
  - destruct cur as [|a cur]; constructor; [|constructor].
    unfold word. rewrite list_ascii_of_string_of_list_ascii, no_space_rev.
    split; [|exact Hc]. intros E. apply (f_equal (@length ascii)) in E.
    rewrite length_rev in E. simpl in E. discriminate.
  - destruct (py_isspace c) eqn:S.
    + destruct cur as [|a cur]; [apply IH; reflexivity|].
      constructor; [|apply IH; reflexivity].
      unfold word. rewrite list_ascii_of_string_of_list_ascii, no_space_rev.
      split; [|exact Hc]. intros E. apply (f_equal (@length ascii)) in E.
      rewrite length_rev in E. simpl in E. discriminate.
    + apply IH. simpl. rewrite S. exact Hc.
Qed.

Lemma no_space_no_boundary l : no_space l = true -> no_boundary l = true.
Proof.
  unfold no_space, no_boundary. rewrite !forallb_forall. intros H x Hx.
  specialize (H x Hx). destruct (is_line_boundary x) eqn:B; [|reflexivity].
  rewrite boundary_space in H by exact B. discriminate.
Qed.

Lemma join_no_boundary ws :
  Forall word ws -> no_boundary (list_ascii_of_string (py_join " " ws)) = true.
Proof.
  induction 1 as [|w ws [_ Hw] Hws IH]; [reflexivity|].
  destruct ws as [|w' ws'].
  - simpl. apply no_space_no_boundary, Hw.
  - change (py_join " " (w :: w' :: ws')) with (w ++ " " ++ py_join " " (w' :: ws')).
    rewrite !StringFacts.list_ascii_app. unfold no_boundary in *.
    pose proof (no_space_no_boundary _ Hw) as B. unfold no_boundary in B.
    rewrite !forallb_app, IH, B. reflexivity.
Qed.

Lemma join_has_letter w ws :
  Forall word (w :: ws) ->
  exists c, In c (list_ascii_of_string (py_join " " (w :: ws))) /\ py_isspace c = false.
Proof.
  intros H. inversion H as [|? ? [Hne Hw] _]; subst.
  destruct (list_ascii_of_string w) as [|c r] eqn:E; [congruence|].
  exists c. split.
  - destruct ws as [|w' ws'].
    + simpl. rewrite E. left; reflexivity.
    + change (py_join " " (w :: w' :: ws')) with (w ++ " " ++ py_join " " (w' :: ws')).
      rewrite StringFacts.list_ascii_app, E. left; reflexivity.
  - unfold no_space in Hw. simpl in Hw. apply andb_true_iff in Hw as [Hc _].
    apply negb_true_iff in Hc. exact Hc.
Qed.

Lemma splitlines_aux_no_boundary l cur :
  no_boundary l = true ->
  splitlines_aux l cur false =
  match (rev cur ++ l)%list with [] => [] | m => [string_of_list_ascii m] end.
Proof.
  revert cur. induction l as [|c l IH]; intros cur H; simpl.
  - rewrite app_nil_r. destruct cur as [|a cur]; [reflexivity|].
    simpl. destruct (rev cur ++ [a])%list eqn:E; [|reflexivity].
    apply (f_equal (@length ascii)) in E. rewrite length_app in E. simpl in E. lia.
  - unfold no_boundary in H. simpl in H. apply andb_true_iff in H as [Hc H].
    apply negb_true_iff in Hc. rewrite Hc. rewrite IH by exact H.
    simpl. rewrite <- app_assoc. simpl.
    destruct (rev cur) as [|x r]; reflexivity.
Qed.

Lemma drop_while_in f l c : In c l -> f c = false -> In c (drop_while f l).
Proof.
  induction l as [|a l IH]; simpl; [tauto|].
  intros [->|H] Hc.
  - rewrite Hc. left; reflexivity.
  - destruct (f a); [apply IH; auto | right; exact H].
Qed.

Lemma strip_with_keeps f s c :
  In c (list_ascii_of_string s) -> f c = false ->
  In c (list_ascii_of_string (strip_with f s)).
Proof.
  intros H Hc. unfold strip_with. rewrite list_ascii_of_string_of_list_ascii.
  apply in_rev. rewrite rev_involutive. apply drop_while_in; [|exact Hc].
  apply in_rev. rewrite rev_involutive. apply drop_while_in; assumption.
Qed.

(** X11: the field [content] accepts exactly the whitespace-normalised text
    [" ".join(content.split())] of at most 200 characters: the
    [str_strip_whitespace] trim does not change the words, the text is
    empty only when there are no words (a content of U+001C..U+001F
    alone passes the trim and [min_length] and fails here), and since the
    normalised text has no line boundary, the check on too long lines is
    a check on its whole length. *)
Theorem content_field_characterization c :
  content_field c =
  let t := rust_trim c in
  if Nat.ltb (String.length t) 1 then Error (ValidationError "string_too_short") else
  if Nat.ltb 1000 (String.length t) then Error (ValidationError "string_too_long") else
  match py_split c with
  | [] => Error (ValidationError "Note content cannot be empty")
  | words =>
      let w := py_join " " words in
      if Nat.ltb 200 (String.length w)
      then Error (ValidationError "Note content contains lines that are too long")
      else Ok w
  end.
Proof.
  unfold content_field. cbv zeta.
  destruct (Nat.ltb (String.length (rust_trim c)) 1); [reflexivity|].
  destruct (Nat.ltb 1000 (String.length (rust_trim c))); [reflexivity|].
  unfold validate_content. rewrite py_split_rust_trim.
  assert (HW := split_aux_words (list_ascii_of_string c) [] eq_refl).
  fold (py_split c) in HW.
  destruct (py_split c) as [|w ws] eqn:E; [reflexivity|].
  destruct (join_has_letter w ws HW) as [x [Hx Hs]].
  assert (Hk := strip_with_keeps py_isspace _ x Hx Hs).
  fold (py_strip (py_join " " (w :: ws))) in Hk.
  assert (Hl : Nat.ltb (String.length (py_strip (py_join " " (w :: ws)))) 1 = false).
  { apply Nat.ltb_ge. rewrite StringFacts.length_list_ascii.
    destruct (list_ascii_of_string (py_strip (py_join " " (w :: ws)))); simpl in *; [tauto|lia]. }
  rewrite Hl.
  unfold py_splitlines. rewrite splitlines_aux_no_boundary by (apply join_no_boundary; exact HW).
  simpl rev. rewrite app_nil_l.
  destruct (list_ascii_of_string (py_join " " (w :: ws))) as [|y r] eqn:L; [simpl in Hx; tauto|].
  rewrite <- L, string_of_list_ascii_of_string. simpl existsb. rewrite orb_false_r.
  reflexivity.
Qed.

Lemma upper_char_AZ09 c : is_AZ09 c = true -> upper_char c = [c].
Proof.
  unfold is_AZ09, upper_char. generalize (code c) as n; intros n H.
  bool_to_prop. split_cmp; simpl; try reflexivity; lia.
Qed.

Lemma isalnum_AZ09 c : is_AZ09 c = true -> py_isalnum_char c = true.
Proof.
  unfold is_AZ09, py_isalnum_char. generalize (code c) as n; intros n H.
  bool_to_prop. lia.
Qed.

Lemma flat_map_upper_AZ09 l : forallb is_AZ09 l = true -> flat_map upper_char l = l.
Proof.
  induction l as [|c l IH]; simpl; auto.
  intros H. apply andb_true_iff in H as [H1 H2]. rewrite upper_char_AZ09, IH; auto.
Qed.

(** X12: [validate_subject_code] never rejects and never changes what the
    field constraints let through: a code that passes [max_length=3] and
    the pattern [^[A-Z0-9]{1,3}$] after the trim is already upper case
    and alphanumeric, so the field keeps the trimmed code as it is. *)
Theorem subject_code_field_characterization v :
  subject_code_field v =
  match v with
  | None => Ok None
  | Some s =>
      let t := rust_trim s in
      if Nat.ltb 3 (String.length t) then Error (ValidationError "string_too_long") else
      if negb (subject_pattern t) then Error (ValidationError "string_pattern_mismatch") else
      Ok (Some t)
  end.
Proof.
  destruct v as [s|]; [|reflexivity]. unfold subject_code_field. cbv zeta.
  destruct (Nat.ltb 3 (String.length (rust_trim s))) eqn:L; [reflexivity|].
  destruct (subject_pattern (rust_trim s)) eqn:P; [|reflexivity].
  unfold subject_pattern in P. apply andb_true_iff in P as [P F].
  apply andb_true_iff in P as [P1 P2].
  unfold validate_subject_code, py_upper.
  rewrite flat_map_upper_AZ09, string_of_list_ascii_of_string by exact F.
  assert (A : py_isalnum (rust_trim s) = true).
  { unfold py_isalnum. destruct (rust_trim s) as [|a r] eqn:E; [discriminate|].
    rewrite <- E. rewrite forallb_forall in *. intros x Hx. rewrite E in Hx. apply isalnum_AZ09, F, Hx. }
  rewrite A, L. reflexivity.
Qed.

Lemma AZ09_compatible l : forallb is_AZ09 l = true -> forallb xml_char_ok l = true.
Proof.
  induction l as [|x l IH]; [reflexivity|]; cbn [forallb].
  intros H; apply andb_prop in H as [H1 H2]; rewrite (IH H2), andb_true_r.
  unfold is_AZ09, xml_char_ok in *; cbv zeta in *.
  destruct (32 <=? code x) eqn:E; [rewrite !orb_true_r; reflexivity|].
  apply Z.leb_gt in E; exfalso.
  apply orb_prop in H1 as [H|H]; apply andb_prop in H as [H _]; apply Z.leb_le in H; lia.
Qed.

(** X13: a constructed note renders when lxml accepts its content (an
    accepted subject code always passes lxml's check), as its [Content]
    and, exactly when a subject code was given, its [SubjectCode]: an
    accepted code is never the empty string that [to_xml]'s
    [if self.subject_code] would drop. A content lxml refuses makes
    [to_xml] raise. *)
Theorem constructed_note_subject_element c sc n element_name profile :
  construct c sc = Ok n ->
  to_xml n element_name profile
  = (if xml_compatible (content n)
     then Ok (Elem (qname RAM element_name) [] [] None
                (leaf (qname RAM "Content") [] (content n)
                 :: match subject_code n with
                    | Some t => [leaf (qname RAM "SubjectCode") [] t]
                    | None => []
                    end))
     else Error (ValueError msg_xml_text))
  /\ is_some (subject_code n) = is_some sc.
Proof.
  unfold construct. destruct (content_field c) as [cw|]; [|discriminate].
  rewrite subject_code_field_characterization.
  destruct sc as [s|].
  - cbv zeta. destruct (Nat.ltb 3 (String.length (rust_trim s))); [discriminate|].
    destruct (subject_pattern (rust_trim s)) eqn:P; [|discriminate].
    intros H; injection H as <-. split; [|reflexivity].
    assert (Hc : xml_compatible (rust_trim s) = true).
    { unfold subject_pattern in P; apply andb_prop in P as [_ F]; exact (AZ09_compatible _ F). }
    rewrite TreeFacts.note_to_xml_eq; unfold TreeFacts.note_renderable, TreeFacts.note_element.
    cbn [subject_code content]; rewrite Hc, andb_true_r.
    destruct (rust_trim s) as [|a r]; [discriminate|]. reflexivity.
  - intros H; injection H as <-. split; [|reflexivity].
    rewrite TreeFacts.note_to_xml_eq; unfold TreeFacts.note_renderable, TreeFacts.note_element.
    cbn [subject_code content]; rewrite andb_true_r; reflexivity.
Qed.

Lemma constructed_note_subject_element_witness :
  construct "Payment due in 30 days" (Some "AAB ") =
    Ok (mk "Payment due in 30 days" (Some "AAB")) /\
  to_xml (mk "Payment due in 30 days" (Some "AAB")) "IncludedNote" BASIC
  = Ok (Elem (qname RAM "IncludedNote") [] [] None
          [leaf (qname RAM "Content") [] "Payment due in 30 days";
           leaf (qname RAM "SubjectCode") [] "AAB"]).
Proof.
  assert (H : construct "Payment due in 30 days" (Some "AAB ") =
              Ok (mk "Payment due in 30 days" (Some "AAB"))) by (vm_compute; reflexivity).
  split; [exact H|].
  destruct (constructed_note_subject_element _ _ _ "IncludedNote" BASIC H) as [E _].
  rewrite E; reflexivity.
Defined.

End NoteFacts.

Module ExchangedDocumentFacts.
Import ExchangedDocument.

Lemma pattern_on_stripped v :
  ALLOWED_ID_PATTERN_matches (py_strip v) = id_chars (list_ascii_of_string (py_strip v)).
Proof.
  unfold ALLOWED_ID_PATTERN_matches.
  destruct (rev (list_ascii_of_string (py_strip v))) as [|c r] eqn:E;
    [rewrite orb_false_r; reflexivity|].
  apply StringFacts.strip_with_last in E.
  unfold py_isspace in E. destruct (Z.eqb_spec (code c) 10) as [H|H].
  - rewrite H in E. discriminate.
  - rewrite orb_false_r. reflexivity.
Qed.

(** X14: the field [id] accepts exactly the stripped value when it is
    non-empty and made of [[A-Za-z0-9\-/_\.\(\)]] characters only.
    Since the value is stripped first, the newline that [$] would let
    through is gone, and since stripping never lengthens a value that
    [max_length=50] accepted, the length check of [validate_id] never
    raises. *)
Theorem id_field_characterization v :
  id_field v =
  if Nat.ltb MAX_ID_LENGTH (String.length v) then Error (ValidationError "string_too_long") else
  let w := py_strip v in
  if String.eqb w "" then Error (ValidationError msg_id_empty) else
  if negb (forallb id_char (list_ascii_of_string w)) then Error (ValidationError msg_id_chars) else
  Ok w.
Proof.
  unfold id_field. destruct (Nat.ltb MAX_ID_LENGTH (String.length v)) eqn:L; [reflexivity|].
  unfold validate_id. cbv zeta.
  destruct (String.eqb (py_strip v) "") eqn:E; [reflexivity|].
  rewrite pattern_on_stripped. unfold id_chars.
  destruct (list_ascii_of_string (py_strip v)) as [|a r] eqn:A.
  { apply String.eqb_neq in E. destruct (py_strip v); [congruence|discriminate]. }
  rewrite <- A. destruct (forallb id_char (list_ascii_of_string (py_strip v))); [|reflexivity].
  simpl negb. cbv iota.
  assert (Hl := StringFacts.strip_with_length py_isspace v). fold (py_strip v) in Hl.
  apply Nat.ltb_ge in L. destruct (Nat.ltb_spec MAX_ID_LENGTH (String.length (py_strip v)));
    [lia | reflexivity].
Qed.

Ltac split_cmp_lia :=
  repeat match goal with
  | |- context [Z.ltb ?a ?b] => destruct (Z.ltb_spec a b); try lia
  | |- context [Z.eqb ?a ?b] => destruct (Z.eqb_spec a b); try lia
  end.

Lemma before_min d us :
  1 <= month d -> 1 <= day d -> 0 <= hour d -> 0 <= minute d -> 0 <= second d -> 0 <= us ->
  lex_lt (dt_fields d us) (dt_fields MIN_DATE 0) = (year d <? 2000).
Proof.
  destruct d as [y m dd h mi s]; cbn -[Z.ltb Z.eqb]. intros.
  split_cmp_lia; reflexivity.
Qed.

Lemma after_max d us :
  month d <= 12 -> day d <= 31 -> 0 <= hour d -> 0 <= minute d -> 0 <= second d -> 0 <= us ->
  lex_lt (dt_fields MAX_DATE 0) (dt_fields d us) =
  negb ((year d <? 2100) || ((year d =? 2100) && ((month d <? 12) || (day d <? 31)
        || ((hour d =? 0) && (minute d =? 0) && (second d =? 0) && (us =? 0))))).
Proof.
  destruct d as [y m dd h mi s]; cbn -[Z.ltb Z.eqb]. intros.
  split_cmp_lia; reflexivity.
Qed.

(** X15: [validate_issue_date_time] on a well-formed [datetime]: an aware
    value never reaches the code that drops its [tzinfo], since comparing
    it with the naive [MIN_DATE] raises [TypeError] first; a naive value
    is accepted from 2000-01-01 00:00 on and up to 2100-12-31 00:00:00.000000
    exactly, so any later instant of 2100-12-31 is rejected. *)
Theorem issue_date_time_window v :
  1 <= month (naive v) <= 12 -> 1 <= day (naive v) <= 31 -> 0 <= hour (naive v) ->
  0 <= minute (naive v) -> 0 <= second (naive v) -> 0 <= microsecond v ->
  validate_issue_date_time v =
  match tzinfo v with
  | Some _ => Error msg_naive_aware
  | None =>
      let d := naive v in
      if (2000 <=? year d) &&
         ((year d <? 2100) || ((year d =? 2100) && ((month d <? 12) || (day d <? 31)
          || ((hour d =? 0) && (minute d =? 0) && (second d =? 0) && (microsecond v =? 0)))))
      then Ok v else Error (ValidationError msg_date_range)
  end.
Proof.
  intros Hm Hd Hh Hmi Hs Hus.
  unfold validate_issue_date_time, dt_lt, dt_gt.
  destruct (tzinfo v); [reflexivity|]. cbv zeta.
  rewrite before_min, after_max by lia.
  destruct (Z.ltb_spec (year (naive v)) 2000); destruct (Z.leb_spec 2000 (year (naive v)));
    try lia; cbn [andb].
  - reflexivity.
  - destruct ((year (naive v) <? 2100) || _); reflexivity.
Qed.

Lemma issue_date_time_window_witness :
  let v := mk_pydatetime (mk_datetime 2100 12 31 0 0 1) 0 None in
  (1 <= month (naive v) <= 12 /\ 1 <= day (naive v) <= 31 /\ 0 <= hour (naive v) /\
   0 <= minute (naive v) /\ 0 <= second (naive v) /\ 0 <= microsecond v) /\
  validate_issue_date_time v = Error (ValidationError msg_date_range).
Proof.
  cbv zeta. split; [simpl; lia|].
  rewrite (issue_date_time_window (mk_pydatetime (mk_datetime 2100 12 31 0 0 1) 0 None))
    by (simpl; lia).
  reflexivity.
Defined.

Lemma nodup_length_le {A} (d : forall x y : A, {x = y} + {x <> y}) l :
  (length (nodup d l) <= length l)%nat.
Proof.
  induction l as [|x l IH]; simpl; [lia|]. destruct (in_dec d x l); simpl; lia.
Qed.

Lemma nodup_length_iff {A} (d : forall x y : A, {x = y} + {x <> y}) l :
  length l = length (nodup d l) <-> NoDup l.
Proof.
  split.
  - induction l as [|x l IH]; simpl; intros H; [constructor|].
    destruct (in_dec d x l).
    + pose proof (nodup_length_le d l). lia.
    + constructor; [assumption|]. apply IH. simpl in H. lia.
  - intros H. rewrite nodup_fixed_point by exact H. reflexivity.
Qed.

(** X16: [validate_notes] accepts a document exactly when it has at most
    [MAX_NOTES] notes with pairwise distinct contents. *)
Theorem validate_notes_accepts self :
  validate_notes self = Ok self <->
  forall notes, included_notes self = Some notes ->
    (length notes <= MAX_NOTES)%nat /\ NoDup (map Note.content notes).
Proof.
  unfold validate_notes. destruct (included_notes self) as [notes|].
  2: { split; [intros _ n H; discriminate | reflexivity]. }
  destruct notes as [|n0 ns].
  { split; [intros _ n H; injection H as <-; split; [simpl; lia | constructor] | reflexivity]. }
  cbn [list_truthy]. set (notes := n0 :: ns).
  destruct (Nat.ltb_spec MAX_NOTES (length notes)) as [L|L].
  { split; [discriminate|]. intros H. destruct (H notes eq_refl). lia. }
  destruct (Nat.eqb_spec (length (map Note.content notes))
              (length (nodup string_dec (map Note.content notes)))) as [E|E]; simpl negb; cbv iota.
  - split; [|reflexivity]. intros _ n H. injection H as <-.
    split; [lia|]. apply (nodup_length_iff string_dec), E.
  - split; [discriminate|]. intros H. destruct (H notes eq_refl) as [_ N].
    apply (nodup_length_iff string_dec) in N. contradiction.
Qed.

(** X17: what [add_note] does to a document: it never touches the other
    fields and always leaves [included_notes] set; on success the new
    note is appended to fewer than [MAX_NOTES] notes, on failure the list
    of notes is the one before the call. *)
Theorem add_note_outcome self content subject_code r self' :
  add_note self content subject_code = (r, self') ->
  id self' = id self /\ type_code self' = type_code self
  /\ issue_date_time self' = issue_date_time self
  /\ exists old,
       (included_notes self = Some old \/ (included_notes self = None /\ old = []))
       /\ match r with
          | Ok _ => (length old < MAX_NOTES)%nat /\
                    exists n, Note.construct content subject_code = Ok n
                              /\ included_notes self' = Some (old ++ [n])%list
          | Error _ => included_notes self' = Some old
          end.
Proof.
  unfold add_note. destruct self as [i t dt notes]. cbn [included_notes].
  set (old := match notes with Some l => l | None => [] end).
  assert (Hold : (match notes with Some _ => mk i t dt notes | None => set_included_notes (mk i t dt notes) (Some []) end) = mk i t dt (Some old)).
  { destruct notes; reflexivity. }
  assert (Hnotes : notes = Some old \/ (notes = None /\ old = [])).
  { destruct notes; [left|right]; auto. }
  rewrite Hold. cbn [included_notes]. fold old.
  destruct (Nat.leb_spec MAX_NOTES (length old)) as [L|L].
  - intros H; injection H as <- <-. simpl. repeat split; auto. exists old; auto.
  - destruct (Note.construct content subject_code) as [n|e] eqn:C;
      intros H; injection H as <- <-; simpl; repeat split; auto; exists old; split; auto.
    split; [assumption|]. exists n; auto.
Qed.

Lemma add_note_outcome_witness :
  add_note Examples.document "Deliver to gate 4" None =
    (Ok tt, set_included_notes Examples.document
               (Some [Note.mk "Thank you" None; Note.mk "Net 30" (Some "AAB");
                      Note.mk "Deliver to gate 4" None])) /\
  id Examples.document = id Examples.document.
Proof.
  assert (H : add_note Examples.document "Deliver to gate 4" None =
    (Ok tt, set_included_notes Examples.document
               (Some [Note.mk "Thank you" None; Note.mk "Net 30" (Some "AAB");
                      Note.mk "Deliver to gate 4" None]))) by (vm_compute; reflexivity).
  split; [exact H|].
  exact (proj1 (add_note_outcome _ _ _ _ _ H)).
Defined.

(** X18: [add_note] does not check for duplicates: adding a note whose
    content is already there succeeds, and the document it leaves behind
    is one that [validate_notes] rejects. *)
Theorem add_note_duplicate_content self notes content subject_code n :
  included_notes self = Some notes -> (length notes < MAX_NOTES)%nat ->
  Note.construct content subject_code = Ok n ->
  In (Note.content n) (map Note.content notes) ->
  fst (add_note self content subject_code) = Ok tt /\
  validate_notes (snd (add_note self content subject_code))
    = Error (ValidationError msg_duplicate_notes).
Proof.
  intros Hn Hl Hc Hin. destruct self as [i t dt ns]; cbn [included_notes] in Hn; subst ns.
  unfold add_note. cbn [included_notes].
  destruct (Nat.leb_spec MAX_NOTES (length notes)) as [L|L]; [lia|]. rewrite Hc.
  split; [reflexivity|]. unfold validate_notes. cbn [snd set_included_notes included_notes].
  destruct (notes ++ [n])%list as [|a l] eqn:E.
  { destruct notes; discriminate. }
  cbn [list_truthy]. rewrite <- E, length_app. cbn [length].
  destruct (Nat.ltb_spec MAX_NOTES (length notes + 1)) as [L'|L']; [lia|].
  destruct (Nat.eqb_spec (length (map Note.content (notes ++ [n])))
              (length (nodup string_dec (map Note.content (notes ++ [n]))))) as [Q|Q];
    [|reflexivity].
  exfalso. apply (nodup_length_iff string_dec) in Q.
  rewrite map_app in Q. apply NoDup_remove_2 with (l' := []) (a := Note.content n) in Q.
  apply Q. rewrite app_nil_r. exact Hin.
Qed.

Lemma add_note_duplicate_content_witness :
  fst (add_note Examples.document "Net 30" None) = Ok tt /\
  validate_notes (snd (add_note Examples.document "Net 30" None))
    = Error (ValidationError msg_duplicate_notes).
Proof.
  apply (add_note_duplicate_content Examples.document
           [Note.mk "Thank you" None; Note.mk "Net 30" (Some "AAB")] "Net 30" None
           (Note.mk "Net 30" None)).
  - reflexivity.
  - unfold MAX_NOTES; simpl; lia.
  - vm_compute; reflexivity.
  - simpl; auto.
Defined.

End ExchangedDocumentFacts.

Module EventFacts.
Import SupplyChainEvent.

(** X19: an accepted occurrence date is stored as the midnight of its day,
    and validating the stored value again gives the same event back. *)
Theorem construct_event_round_trip v e :
  construct v = Ok e ->
  occurrence_date e = midnight v /\
  construct (mk_pydatetime (occurrence_date e) 0 None) = Ok e.
Proof.
  unfold construct, validate_occurrence_date.
  destruct ((year (naive v) <? 1900) || (2100 <? year (naive v))) eqn:Y; [discriminate|].
  intros H; injection H as <-. split; [reflexivity|].
  cbn [occurrence_date naive year month day]. rewrite Y. reflexivity.
Qed.

Lemma construct_event_round_trip_witness :
  let v := mk_pydatetime (mk_datetime 2025 4 25 13 45 10) 500 (Some 3600) in
  construct v = Ok (mk (mk_datetime 2025 4 25 0 0 0)) /\
  occurrence_date (mk (mk_datetime 2025 4 25 0 0 0)) = midnight v /\
  construct (mk_pydatetime (occurrence_date (mk (mk_datetime 2025 4 25 0 0 0))) 0 None)
    = Ok (mk (mk_datetime 2025 4 25 0 0 0)).
Proof.
  cbv zeta.
  assert (H : construct (mk_pydatetime (mk_datetime 2025 4 25 13 45 10) 500 (Some 3600))
              = Ok (mk (mk_datetime 2025 4 25 0 0 0))) by reflexivity.
  split; [exact H|]. exact (construct_event_round_trip _ _ H).
Defined.

(** X20: for a constructed event, [is_future_event] compares calendar days
    only: the event is in the future exactly when its (year, month, day)
    comes after the reference's; so an event on the same day as the
    reference is never in the future. *)
Theorem is_future_event_by_day v e now reference_date :
  construct v = Ok e ->
  let r := match reference_date with Some r => r | None => now end in
  is_future_event e now reference_date =
    lex_lt [year (naive r); month (naive r); day (naive r)]
           [year (naive v); month (naive v); day (naive v)]
  /\ (is_same_day e r = true -> is_future_event e now reference_date = false).
Proof.
  intros H r. destruct (construct_event_round_trip v e H) as [E _].
  unfold is_future_event, is_same_day. fold r. rewrite E. unfold midnight, dt_fields.
  cbn [lex_lt year month day hour minute second naive].
  rewrite !Z.ltb_irrefl, !Z.eqb_refl. cbn [andb orb].
  split.
  - reflexivity.
  - rewrite !andb_true_iff, !Z.eqb_eq. intros [[Y M] D].
    rewrite Y, M, D, !Z.ltb_irrefl, !Z.eqb_refl. reflexivity.
Qed.

Lemma is_future_event_by_day_witness :
  let v := mk_pydatetime (mk_datetime 2025 4 25 13 45 10) 0 None in
  let r := mk_pydatetime (mk_datetime 2025 4 25 9 0 0) 0 None in
  construct v = Ok (mk (mk_datetime 2025 4 25 0 0 0)) /\
  is_future_event (mk (mk_datetime 2025 4 25 0 0 0)) r (Some r) =
    lex_lt [2025; 4; 25] [2025; 4; 25] /\
  (is_same_day (mk (mk_datetime 2025 4 25 0 0 0)) r = true ->
   is_future_event (mk (mk_datetime 2025 4 25 0 0 0)) r (Some r) = false).
Proof.
  cbv zeta.
  assert (H : construct (mk_pydatetime (mk_datetime 2025 4 25 13 45 10) 0 None)
              = Ok (mk (mk_datetime 2025 4 25 0 0 0))) by reflexivity.
  split; [exact H|].
  exact (is_future_event_by_day _ _ (mk_pydatetime (mk_datetime 2025 4 25 9 0 0) 0 None)
           (Some (mk_pydatetime (mk_datetime 2025 4 25 9 0 0) 0 None)) H).
Defined.

End EventFacts.

Module HeaderFacts.
Import XmlFacts.

Lemma prof_lt_ge p q : prof_lt p q = negb (prof_ge p q).
Proof. destruct p, q; reflexivity. Qed.

Section Delivery.
Import HeaderTradeDelivery.

(** X21: after [HeaderTradeDelivery.to_xml] has set the current profile,
    [validate_profile_specific_fields] accepts the node exactly when the
    element the render returned dropped none of its optional elements:
    every element below its minimum profile that [to_xml] skips is one
    the validator reports. *)
Theorem delivery_validator_flags_dropped_fields d element_name profile e :
  fst (to_xml d element_name profile) = Ok e ->
  (validate_profile_specific_fields (snd (to_xml d element_name profile))
     = Ok (snd (to_xml d element_name profile)) <->
   length (children e) =
   (Nat.b2n (is_some (ship_to_trade_party d))
    + Nat.b2n (is_some (actual_delivery_supply_chain_event d))
    + Nat.b2n (is_some (despatch_advice_referenced_document d))
    + Nat.b2n (is_some (receiving_advice_referenced_document d)))%nat).
Proof.
  intros He; destruct (delivery_grows _ _ _ _ He) as [_ [_ [l [Hl Hk]]]].
  rewrite Hl; cbn [children new_element app]; rewrite Hk.
  change (snd (to_xml d element_name profile)) with (set_current_profile d profile).
  unfold validate_profile_specific_fields. cbn [set_current_profile _current_profile
    ship_to_trade_party actual_delivery_supply_chain_event despatch_advice_referenced_document
    receiving_advice_referenced_document].
  rewrite !prof_lt_ge.
  destruct (is_some (ship_to_trade_party d)), (is_some (actual_delivery_supply_chain_event d)),
    (is_some (despatch_advice_referenced_document d)),
    (is_some (receiving_advice_referenced_document d));
  destruct profile; cbn -[ValidationError];
    split; intros H; first [reflexivity | discriminate | lia].
Qed.

Lemma delivery_validator_flags_dropped_fields_witness :
  fst (to_xml Examples.delivery "ApplicableHeaderTradeDelivery" MINIMUM)
    = Ok (new_element (qname RAM "ApplicableHeaderTradeDelivery"))
  /\ (validate_profile_specific_fields
        (snd (to_xml Examples.delivery "ApplicableHeaderTradeDelivery" MINIMUM))
      = Ok (snd (to_xml Examples.delivery "ApplicableHeaderTradeDelivery" MINIMUM))
      <-> length (children (new_element (qname RAM "ApplicableHeaderTradeDelivery"))) = 1%nat).
Proof.
  assert (H : fst (to_xml Examples.delivery "ApplicableHeaderTradeDelivery" MINIMUM)
              = Ok (new_element (qname RAM "ApplicableHeaderTradeDelivery"))) by reflexivity.
  split; [exact H|].
  exact (delivery_validator_flags_dropped_fields _ _ _ _ H).
Defined.

End Delivery.

Section Settlement.
Import HeaderTradeSettlement.

Lemma find_snd_none (l : list (string * bool)) :
  find snd l = None <-> forallb (fun fv => negb (snd fv)) l = true.
Proof.
  induction l as [|[f b] l IH]; simpl; [tauto|].
  destruct b; simpl; [split; discriminate|exact IH].
Qed.

(** X22: an element [HeaderTradeSettlement.to_xml] returns holds the
    invoice currency code and the monetary summation, plus, from BASICWL
    on only, one element per optional text or object field that is set
    and one per item of each optional list; after the call has set the
    current profile (which it does also when it raises), the validator
    rejects the node below BASICWL as soon as one optional field is set,
    an empty list included, which renders nothing. *)
Theorem settlement_render_and_validate s element_name profile :
  (forall e, fst (to_xml s element_name profile) = Ok e ->
   length (children e) =
   (2 + if prof_ge profile BASICWL
        then Nat.b2n (is_some (creditor_reference_id s)) + Nat.b2n (is_some (payment_reference s))
             + Nat.b2n (is_some (tax_currency_code s)) + Nat.b2n (is_some (payee_trade_party s))
             + Nat.b2n (is_some (billing_specified_period s))
             + Nat.b2n (is_some (specified_trade_payment_terms s))
             + Nat.b2n (is_some (receivable_specified_trade_accounting_account s))
             + opt_length (specified_trade_settlement_payment_means s)
             + opt_length (applicable_trade_tax s)
             + opt_length (specified_trade_allowance_charge s)
             + opt_length (invoice_referenced_documents s)
        else 0)%nat)
  /\ (validate_profile_specific_fields (snd (to_xml s element_name profile))
        = Ok (snd (to_xml s element_name profile)) <->
      prof_ge profile BASICWL = true
      \/ forallb (fun fv => negb (snd fv)) (basicwl_fields s) = true).
Proof.
  split.
  - intros e He; destruct (settlement_grows _ _ _ _ He) as [_ [_ [l [Hl Hk]]]].
    rewrite Hl; cbn [children new_element app]; rewrite Hk.
    destruct (prof_ge profile BASICWL); lia.
  - change (snd (to_xml s element_name profile)) with (set_current_profile s profile).
    unfold validate_profile_specific_fields.
    cbn [set_current_profile _current_profile].
    change (basicwl_fields (set_current_profile s profile)) with (basicwl_fields s).
    rewrite prof_lt_ge. destruct (prof_ge profile BASICWL); cbn [negb].
    + split; [intros _; left; reflexivity | reflexivity].
    + rewrite <- find_snd_none. destruct (find snd (basicwl_fields s)) as [[f b]|].
      * split; [discriminate|]. intros [H|H]; discriminate.
      * split; [intros _; right; reflexivity | reflexivity].
Qed.

Lemma settlement_render_and_validate_witness :
  fst (to_xml Examples.settlement "ApplicableHeaderTradeSettlement" BASIC)
    = Ok (match fst (to_xml Examples.settlement "ApplicableHeaderTradeSettlement" BASIC) with
          | Ok e => e | Error _ => new_element "" end)
  /\ length (children
        (match fst (to_xml Examples.settlement "ApplicableHeaderTradeSettlement" BASIC) with
         | Ok e => e | Error _ => new_element "" end)) = 3%nat.
Proof.
  assert (H : fst (to_xml Examples.settlement "ApplicableHeaderTradeSettlement" BASIC)
              = Ok (match fst (to_xml Examples.settlement "ApplicableHeaderTradeSettlement" BASIC) with
                    | Ok e => e | Error _ => new_element "" end)) by (vm_compute; reflexivity).
  split; [exact H|].
  exact (proj1 (settlement_render_and_validate Examples.settlement _ BASIC) _ H).
Defined.

End Settlement.

End HeaderFacts.
